(** * AGBAC-Min: the signed act assertion and the vendor adapters

    A shallow embedding of the Python sources of AGBAC-Min

    - [code/python/hybrid_sender.py]              (module [HybridSender], and
      module [hybrid_sender] for sessions of any values),
    - [code/out_of_session_token_request.py]      (module [OutOfSessionTokenRequest]),
    - [code/python/base_adapter.py]               (module [BaseAdapter]),
    - [agents/python/adapters/*.py]               (module [adapters]),
    - [code/in_session_token_request.py]          (module [InSessionTokenRequest]),
    - [code/in_session_api_call.py] and
      [code/python/out_of_session_api_call.py]    (module [api_call]),
    - [agents/python/sender/hybrid_sender.py]     (module [agents_sender]),
    - the helpers of [code/python/base_adapter.py] (module [base_adapter])
      and [request_token] of the out-of-session class
      (module [OutOfSessionRequest]),

    followed by the properties of the specification that concern them.

    Python dictionaries are [gmap string _], the set of consumed nonces is a
    [gset string], exceptions are values of [Py.exn] carried by [Py.result],
    and the mutable verifier object is threaded explicitly: a method returns
    its outcome together with the object after the call.  The two inputs the
    code takes from its environment, the clock and the random nonce, are
    arguments of the functions that read them. *)

From Stdlib Require Import ZArith Ascii String List Lia Bool.
From stdpp Require Import gmap strings list fin_maps pretty.

(** ** Python values, exceptions and truthiness *)

Module Py.

(** The exception classes that occur in the modelled code.  [HTTPError],
    [ConnectionError] and [JSONDecodeError] are those of [requests];
    [TokenRequestError] is the class of [base_adapter.py], with its
    optional [status_code]. *)
Inductive exn : Type :=
| ValueError (msg : string)
| AttributeError (msg : string)
| JSONDecodeError
| ConnectionError
| HTTPError (status_code : Z) (response_text : string)
| TokenRequestError (msg : string) (status_code : option Z).

(** [e.__class__.__name__] *)
Definition class_name (e : exn) : string :=
  match e with
  | ValueError _ => "ValueError"
  | AttributeError _ => "AttributeError"
  | JSONDecodeError => "JSONDecodeError"
  | ConnectionError => "ConnectionError"
  | HTTPError _ _ => "HTTPError"
  | TokenRequestError _ _ => "TokenRequestError"
  end.

(** The outcome of a call: a returned value or a raised exception. *)
Inductive result (A : Type) : Type :=
| Return (a : A)
| Raise (e : exn).
Arguments Return {A} a.
Arguments Raise {A} e.

Definition is_return {A} (r : result A) : bool :=
  match r with Return _ => true | Raise _ => false end.

(** Truth value of a string: the empty string is false. *)
Definition str_truthy (s : string) : bool := negb (String.eqb s "").

(** Truth value of what [d.get(k)] returns: [None] and [''] are false. *)
Definition truthy (v : option string) : bool :=
  match v with
  | Some s => str_truthy s
  | None => false
  end.

(** Truth value of a dictionary: the empty one is false. *)
Definition dict_truthy {V} (d : gmap string V) : bool :=
  negb (bool_decide (d = ∅)).

(** [a or b] *)
Definition or_ (a b : option string) : option string :=
  if truthy a then a else b.

(** The string held by a value known to be true. *)
Definition str_of (v : option string) : string := default ""%string v.

(** [s.startswith(p)] *)
Definition startswith (s p : string) : bool := String.prefix p s.

End Py.

(** ** The PyJWT calls the code makes

    [jwt.encode(payload, key, algorithm='RS256')] and
    [jwt.decode(token, key, algorithms=[...], audience=..., options={'verify_exp': True})].

    Cryptography is symbolic: an RSA key pair is named by a number, a
    signature records the private key and the header and payload it was
    computed over, and it verifies under a public key exactly when that key
    belongs to the same pair and header and payload are the signed ones.
    Of the signing algorithms only RS256, the one the code uses, is
    modelled.  A payload is the JSON object of the assertion format, every
    member optional: [iss], [sub], [aud], [exp], [iat], [jti] and [act].

    A clock value is the number of whole seconds since the epoch: the
    sender truncates its reading with [int(time.time())], and the library
    compares the integers [iat] and [exp] with its reading, which comes to
    the same as comparing them with the whole seconds of that reading. *)

Module jwt.

Inductive rsa_private_key : Type := RSAPrivateKey (pair : N).
Inductive rsa_public_key : Type := RSAPublicKey (pair : N).

Definition public_key (k : rsa_private_key) : rsa_public_key :=
  match k with RSAPrivateKey n => RSAPublicKey n end.

Record header : Type := Header { alg : string; typ : string }.

Record claims : Type := Claims {
  iss : option string;
  sub : option string;
  aud : option string;
  exp : option Z;
  iat : option Z;
  jti : option string;
  act : option (gmap string string)
}.

Inductive signature : Type :=
| RS256_signature (signer : rsa_private_key) (h : header) (p : claims)
| octets (s : string).

Record jws : Type := JWS {
  jws_header : header;
  jws_payload : claims;
  jws_signature : signature
}.

(** The string handed to [decode]: a compact serialization, or a string
    that is none, with the message of the [DecodeError] it draws. *)
Inductive token : Type :=
| compact (t : jws)
| not_compact (why : string).

#[export] Instance rsa_private_key_eq_dec : EqDecision rsa_private_key.
Proof. solve_decision. Defined.
#[export] Instance rsa_public_key_eq_dec : EqDecision rsa_public_key.
Proof. solve_decision. Defined.
#[export] Instance header_eq_dec : EqDecision header.
Proof. solve_decision. Defined.
#[export] Instance claims_eq_dec : EqDecision claims.
Proof. solve_decision. Defined.

(** The exception classes of the library.  All derive from
    [InvalidTokenError]; [InvalidSignatureError] derives from
    [DecodeError]. *)
Inductive error : Type :=
| DecodeError (msg : string)
| InvalidSignatureError (msg : string)
| InvalidAlgorithmError (msg : string)
| ImmatureSignatureError (msg : string)
| ExpiredSignatureError (msg : string)
| MissingRequiredClaimError (claim : string)
| InvalidAudienceError (msg : string).

Definition dquote : string := String (Ascii.ascii_of_nat 34) EmptyString.

(** [str(e)] *)
Definition str (e : error) : string :=
  match e with
  | DecodeError m | InvalidSignatureError m | InvalidAlgorithmError m
  | ImmatureSignatureError m | ExpiredSignatureError m
  | InvalidAudienceError m => m
  | MissingRequiredClaimError c =>
      "Token is missing the " +:+ dquote +:+ c +:+ dquote +:+ " claim"
  end.

(** [jwt.encode(payload, key, algorithm='RS256')] *)
Definition encode (payload : claims) (key : rsa_private_key) : token :=
  let h := {| alg := "RS256"; typ := "JWT" |} in
  compact {| jws_header := h;
             jws_payload := payload;
             jws_signature := RS256_signature key h payload |}.

(** RSASSA-PKCS1-v1_5 with SHA-256 over the signing input. *)
Definition RS256_verify (key : rsa_public_key) (h : header) (p : claims)
    (s : signature) : bool :=
  match s with
  | RS256_signature k h' p' =>
      bool_decide (public_key k = key) && bool_decide (h' = h)
      && bool_decide (p' = p)
  | octets _ => false
  end.

(** [_verify_signature]: the algorithm of the header must be one of
    [algorithms], then the signature must verify. *)
Definition verify_signature (t : jws) (key : rsa_public_key)
    (algorithms : list string) : option error :=
  let a := alg (jws_header t) in
  if negb (Py.str_truthy a) || negb (bool_decide (a ∈ algorithms)) then
    Some (InvalidAlgorithmError "The specified alg value is not allowed")
  else if negb (String.eqb a "RS256") then
    Some (InvalidAlgorithmError "Algorithm not supported")
  else if negb (RS256_verify key (jws_header t) (jws_payload t)
                  (jws_signature t)) then
    Some (InvalidSignatureError "Signature verification failed")
  else None.

(** [_validate_claims] with [leeway = 0]: [iat], then [exp], then [aud];
    no issuer is expected. *)
Definition validate_claims (p : claims) (audience : string) (now : Z)
    : option error :=
  if match iat p with Some i => (now <? i)%Z | None => false end then
    Some (ImmatureSignatureError "The token is not yet valid (iat)")
  else if match exp p with Some e => (e <=? now)%Z | None => false end then
    Some (ExpiredSignatureError "Signature has expired")
  else
    match aud p with
    | None => Some (MissingRequiredClaimError "aud")
    | Some a =>
        if negb (Py.str_truthy a) then
          Some (MissingRequiredClaimError "aud")
        else if negb (String.eqb a audience) then
          Some (InvalidAudienceError "Audience doesn't match")
        else None
    end.

(** [jwt.decode]: parse, verify the signature, only then validate the
    claims of the payload, read at clock value [now]. *)
Definition decode (t : token) (key : rsa_public_key)
    (algorithms : list string) (audience : string) (now : Z)
    : claims + error :=
  match t with
  | not_compact why => inr (DecodeError why)
  | compact j =>
      match verify_signature j key algorithms with
      | Some e => inr e
      | None =>
          match validate_claims (jws_payload j) audience now with
          | Some e => inr e
          | None => inl (jws_payload j)
          end
      end
  end.

End jwt.

(** ** [code/python/hybrid_sender.py] *)

Module HybridSender.
Import Py.

Local Notation "a 'or' b" := (or_ a b) (at level 72, left associativity).

(** The object after [__init__]: [_private_key] is [None] when no key
    path was given. *)
Record t : Type := Make { _private_key : option jwt.rsa_private_key }.

(** [extract_act_from_session] on a session whose values are all
    strings, up to the act.  The call of [_sanitize_identifier] made for
    the log record before the return is left to module [hybrid_sender],
    which takes sessions of any values: on strings it does not raise. *)
Definition extract_act_from_session (session : gmap string string)
    : result (gmap string string) :=
  if negb (dict_truthy session) then
    Raise (ValueError "Session must be a dictionary")
  else
    let email := session !! "email" or session !! "user_email"
                 or session !! "userPrincipalName" or session !! "mail" in
    if negb (truthy email) then
      Raise (ValueError "Session must contain email")
    else
      let sub := session !! "sub" or session !! "user_id"
                 or session !! "oid" or email in
      let name := session !! "name" or session !! "display_name"
                  or session !! "displayName" in
      let act : gmap string string :=
        <["email" := str_of email]> (<["sub" := str_of sub]> ∅) in
      let act := if truthy name then <["name" := str_of name]> act
                 else act in
      Return act.

Definition prepare_in_session_act (self : t) (act : gmap string string)
    : gmap string string := act.

(** [now] is [int(time.time())] and [jti] is [secrets.token_urlsafe(32)]
    as drawn by this call. *)
Definition prepare_out_of_session_act (self : t) (act : gmap string string)
    (agent_endpoint : string) (ttl_seconds : Z) (now : Z) (jti : string)
    : result jwt.token :=
  match _private_key self with
  | None => Raise (ValueError "HybridSender not configured for out-of-session")
  | Some key =>
      if negb (dict_truthy act) || negb (bool_decide (is_Some (act !! "sub")))
      then Raise (ValueError "Act must contain 'sub' field")
      else if negb (str_truthy agent_endpoint)
              || negb (startswith agent_endpoint "https://")
      then Raise (ValueError "Agent endpoint must use HTTPS")
      else
        let payload := {|
          jwt.iss := Some "application"%string;
          jwt.sub := Some "application"%string;
          jwt.aud := Some agent_endpoint;
          jwt.exp := Some (now + ttl_seconds)%Z;
          jwt.iat := Some now;
          jwt.jti := Some jti;
          jwt.act := Some act |} in
        Return (jwt.encode payload key)
  end.

End HybridSender.

(** ** [code/out_of_session_token_request.py] *)

Module OutOfSessionTokenRequest.
Import Py.

(** The fields [receive_and_verify_act_jwt] reads and writes. *)
Record t : Type := Make {
  _app_public_key : jwt.rsa_public_key;
  _used_jtis : gset string
}.

(** The [except] clauses, in the order they are written. *)
Definition handler (e : jwt.error) : exn :=
  match e with
  | jwt.ExpiredSignatureError _ => ValueError "Act JWT expired"
  | jwt.InvalidAudienceError _ => ValueError "Act JWT invalid audience"
  | jwt.InvalidSignatureError _ => ValueError "Act JWT signature invalid"
  | _ => ValueError ("Act JWT invalid: " +:+ jwt.str e)
  end.

(** Lines 106-120: extract [act] from the decoded payload. *)
Definition extract_act (decoded : jwt.claims) : result (gmap string string) :=
  match jwt.act decoded with
  | Some act =>
      if negb (dict_truthy act) || negb (bool_decide (is_Some (act !! "sub")))
      then Raise (ValueError "Act JWT must contain act.sub")
      else Return act
  | None => Raise (ValueError "Act JWT must contain act.sub")
  end.

(** One call at clock value [now]: the outcome and the object after it. *)
Definition receive_and_verify_act_jwt (self : t) (act_jwt : jwt.token)
    (expected_audience : string) (now : Z)
    : result (gmap string string) * t :=
  match jwt.decode act_jwt (_app_public_key self) ["RS256"%string]
          expected_audience now with
  | inr e => (Raise (handler e), self)
  | inl decoded =>
      let jti := jwt.jti decoded in
      if truthy jti then
        if bool_decide (str_of jti ∈ _used_jtis self) then
          (Raise (ValueError "Act JWT replay detected"), self)
        else
          (extract_act decoded,
           {| _app_public_key := _app_public_key self;
              _used_jtis := {[ str_of jti ]} ∪ _used_jtis self |})
      else (extract_act decoded, self)
  end.

(** A sequence of calls on one instance. *)
Record call : Type := Call {
  call_jwt : jwt.token;
  call_audience : string;
  call_time : Z
}.

Fixpoint run (self : t) (calls : list call)
    : list (call * result (gmap string string)) :=
  match calls with
  | [] => []
  | c :: cs =>
      let '(r, self') :=
        receive_and_verify_act_jwt self (call_jwt c) (call_audience c)
          (call_time c) in
      (c, r) :: run self' cs
  end.

End OutOfSessionTokenRequest.

(** ** The vocabulary of the specification

    The code raises [ValueError] throughout; the failure kinds of the
    specification are told apart by the message. *)

Module Taxonomy.
Import Py.

Definition Expired : exn := ValueError "Act JWT expired".
Definition AudienceMismatch : exn := ValueError "Act JWT invalid audience".
Definition SignatureInvalid : exn := ValueError "Act JWT signature invalid".
Definition ReplayDetected : exn := ValueError "Act JWT replay detected".
Definition MalformedClaim : exn := ValueError "Act JWT must contain act.sub".
(** The catch-all clause [except jwt.InvalidTokenError as e]. *)
Definition InvalidToken (why : string) : exn :=
  ValueError ("Act JWT invalid: " +:+ why).

Definition SigningKeyMissing : exn :=
  ValueError "HybridSender not configured for out-of-session".
Definition InvalidClaim : exn := ValueError "Act must contain 'sub' field".
Definition InvalidAssertionRequest : exn :=
  ValueError "Agent endpoint must use HTTPS".
Definition MissingIdentity : exn := ValueError "Session must contain email".

End Taxonomy.

Module Assertion.

(** The payload a token carries, if it is a compact serialization. *)
Definition payload (t : jwt.token) : option jwt.claims :=
  match t with
  | jwt.compact j => Some (jwt.jws_payload j)
  | jwt.not_compact _ => None
  end.

(** The token is a compact serialization whose header names RS256 and
    whose signature verifies under [key]. *)
Definition signature_ok (key : jwt.rsa_public_key) (t : jwt.token) : bool :=
  match t with
  | jwt.compact j =>
      String.eqb (jwt.alg (jwt.jws_header j)) "RS256"
      && jwt.RS256_verify key (jwt.jws_header j) (jwt.jws_payload j)
           (jwt.jws_signature j)
  | jwt.not_compact _ => false
  end.

(** [exp], when present, lies after [now]. *)
Definition unexpired (p : jwt.claims) (now : Z) : Prop :=
  ∀ e, jwt.exp p = Some e → (now < e)%Z.

(** [iat], when present, does not lie after [now]. *)
Definition issued_by (p : jwt.claims) (now : Z) : Prop :=
  ∀ i, jwt.iat p = Some i → (i ≤ now)%Z.

(** [exp] at or before [now]. *)
Definition expired_at (p : jwt.claims) (now : Z) : bool :=
  match jwt.exp p with
  | Some e => (e <=? now)%Z
  | None => false
  end.

(** [exp > iat], the invariant of a signed assertion. *)
Definition exp_after_iat (p : jwt.claims) : Prop :=
  ∃ i e, jwt.iat p = Some i ∧ jwt.exp p = Some e ∧ (i < e)%Z.

(** The embedded act is missing, or has no ['sub']. *)
Definition act_malformed (p : jwt.claims) : Prop :=
  match jwt.act p with
  | Some a => a !! "sub" = None
  | None => True
  end.

(** The registered claims pass at [now] for the expected [audience]: the
    payload is not issued later than [now], is unexpired, and its [aud] is
    the non-empty [audience]. *)
Definition valid_for (p : jwt.claims) (audience : string) (now : Z) : Prop :=
  issued_by p now ∧ unexpired p now ∧ jwt.aud p = Some audience
  ∧ audience ≠ ""%string.

(** The token carries the nonce [j]. *)
Definition carries_jti (j : string) (t : jwt.token) : bool :=
  match payload t with
  | Some p => bool_decide (jwt.jti p = Some j)
  | None => false
  end.

(** A call of a sequence that carried nonce [j] and returned. *)
Definition consumed (j : string)
    (cr : OutOfSessionTokenRequest.call * Py.result (gmap string string))
    : bool :=
  carries_jti j (OutOfSessionTokenRequest.call_jwt cr.1)
  && Py.is_return cr.2.

End Assertion.

(** ** The calls into [requests] the adapters make *)

Module requests.
Import Py.

(** A value of the payload dictionary handed to [requests.post]: a
    string, or the nested act dictionary. *)
Inductive field : Type :=
| str_field (s : string)
| dict_field (d : gmap string string).

(** The keyword under which the payload is handed over: [json=] or
    [data=]. *)
Inductive encoding : Type := json_body | form_data.

(** The arguments of a call [requests.post(url, json=payload)] or
    [requests.post(url, data=payload)]; [body] is the payload. *)
Record request : Type := Request {
  url : string;
  body_encoding : encoding;
  body : gmap string field
}.

(** What [requests] writes into the request body for one key of the
    payload.  With [json=] the payload is serialised as JSON, a nested
    dictionary as a nested object.  With [data=] it is form-encoded: a
    string gives one value, and a dictionary is iterated, which yields
    its keys, so its key names are written, one value each, and the
    values it holds are not. *)
Inductive wire_value : Type :=
| json_string (s : string)
| json_object (d : gmap string string)
| form_values (vs : gset string).

Definition encode (how : encoding) (f : field) : wire_value :=
  match how, f with
  | json_body, str_field s => json_string s
  | json_body, dict_field d => json_object d
  | form_data, str_field s => form_values {[ s ]}
  | form_data, dict_field d => form_values (dom d)
  end.


Record Response : Type := MakeResponse {
  status_code : Z;
  text : string;
  parsed : option (gmap string string)   (* the body as a JSON object, if it is one *)
}.

(** How a call of [requests.post] ends, as its caller sees it: with the
    response the call returns, or with no response at all
    ([requests.ConnectionError]).  [requests] follows redirects, so the
    response returned is the last of the exchange and need not come from
    the URL the call names. *)
Definition transport : Type := request → option Response.

Definition post (net : transport) (rq : request) : result Response :=
  match net rq with
  | Some r => Return r
  | None => Raise ConnectionError
  end.

(** [response.raise_for_status()]: 4xx and 5xx raise [HTTPError]. *)
Definition raise_for_status (r : Response) : result unit :=
  if (400 <=? status_code r)%Z && (status_code r <? 600)%Z
  then Raise (HTTPError (status_code r) (text r))
  else Return tt.

(** [response.json()] *)
Definition json (r : Response) : result (gmap string string) :=
  match parsed r with
  | Some d => Return d
  | None => Raise JSONDecodeError
  end.

End requests.

(** ** [code/python/base_adapter.py] *)

Module BaseAdapter.
Import Py.

Record TokenResponse : Type := MakeTokenResponse {
  access_token : string;
  token_type : string;
  expires_in : Z;
  scope : string;
  act_assertion : option string
}.

(** The attributes [__init__] sets. *)
Record t : Type := Make {
  config : gmap string string;
  token_url : string;
  client_id : string;
  _client_secret : string;
  audience : option string
}.

Definition required_fields : list string :=
  ["token_url"; "client_id"; "client_secret"]%string.

Definition __init__ (config : gmap string string) : result t :=
  let missing_fields :=
    filter (λ f, config !! f = None) required_fields in
  if negb (bool_decide (missing_fields = [])) then
    Raise (ValueError ("Missing required configuration: "
                       +:+ String.concat ", " missing_fields))
  else
    let token_url := str_of (config !! "token_url") in
    if negb (startswith token_url "https://") then
      Raise (ValueError "Token URL must use HTTPS (https://)")
    else
      Return {| config := config;
                token_url := token_url;
                client_id := str_of (config !! "client_id");
                _client_secret := str_of (config !! "client_secret");
                audience := config !! "audience" |}.

End BaseAdapter.

(** ** [agents/python/adapters/]: the vendor adapters *)

Module adapters.
Import Py.

(** What a call of [request_token] may hand back: the adapters of this
    directory return the provider's JSON object, a [dict]; the callers of
    [code/] expect a [TokenResponse]; nothing checks the class, so an
    adapter may hand back any other object, known here by the name of its
    class and the names of the attributes it has. *)
Inductive token_value : Type :=
| dict_value (d : gmap string string)
| TokenResponse_value (r : BaseAdapter.TokenResponse)
| object_value (class_name : string) (attributes : gset string).

(** The object has the attribute [expires_in], or [act_assertion]. *)
Definition has_expires_in (v : token_value) : bool :=
  match v with
  | dict_value _ => false
  | TokenResponse_value _ => true
  | object_value _ attributes => bool_decide ("expires_in"%string ∈ attributes)
  end.

Definition has_act_assertion (v : token_value) : bool :=
  match v with
  | dict_value _ => false
  | TokenResponse_value _ => true
  | object_value _ attributes =>
      bool_decide ("act_assertion"%string ∈ attributes)
  end.

(** The interface of [BaseAdapter]: one method, [request_token].  The
    network is an argument. *)
Class Adapter (A : Type) : Type := {
  request_token :
    A → requests.transport → string → gmap string string → list string
    → result token_value
}.

(** The common tail of the three [request_token] bodies:
    [raise_for_status], then [json]; both [except] clauses re-raise. *)
Definition post_for_token (net : requests.transport) (rq : requests.request)
    : result token_value :=
  match requests.post net rq with
  | Raise e => Raise e
  | Return response =>
      match requests.raise_for_status response with
      | Raise e => Raise e
      | Return _ =>
          match requests.json response with
          | Raise e => Raise e
          | Return token_data => Return (dict_value token_data)
          end
      end
  end.

Module Auth0Adapter.
Record t : Type := Make {
  token_url : string;
  client_id : string;
  client_secret : string
}.

Definition __init__ (domain client_id client_secret : string) : t :=
  {| token_url := "https://" +:+ domain +:+ "/oauth/token";
     client_id := client_id;
     client_secret := client_secret |}.

Definition request_token (self : t) (net : requests.transport)
    (sub : string) (act : gmap string string) (scope : list string)
    : result token_value :=
  let payload : gmap string requests.field :=
    <["grant_type" := requests.str_field "client_credentials"]>
    (<["client_id" := requests.str_field (client_id self)]>
    (<["client_secret" := requests.str_field (client_secret self)]>
    (<["audience" := requests.str_field "https://api.example.com/"]>
    (<["scope" := requests.str_field (String.concat " " scope)]>
    (<["sub" := requests.str_field sub]>
    (<["act" := requests.dict_field act]> ∅)))))) in
  post_for_token net
    {| requests.url := token_url self;
       requests.body_encoding := requests.json_body;
       requests.body := payload |}.
End Auth0Adapter.

Module OktaAdapter.
Record t : Type := Make {
  token_url : string;
  client_id : string;
  client_secret : string
}.

Definition __init__ (token_url client_id client_secret : string) : t :=
  {| token_url := token_url;
     client_id := client_id;
     client_secret := client_secret |}.

Definition request_token (self : t) (net : requests.transport)
    (sub : string) (act : gmap string string) (scope : list string)
    : result token_value :=
  let payload : gmap string requests.field :=
    <["grant_type" := requests.str_field "client_credentials"]>
    (<["scope" := requests.str_field (String.concat " " scope)]>
    (<["client_id" := requests.str_field (client_id self)]>
    (<["client_secret" := requests.str_field (client_secret self)]>
    (<["act" := requests.dict_field act]>
    (<["sub" := requests.str_field sub]> ∅))))) in
  post_for_token net
    {| requests.url := token_url self;
       requests.body_encoding := requests.json_body;
       requests.body := payload |}.
End OktaAdapter.

Module EntraIDAdapter.
Record t : Type := Make {
  token_url : string;
  client_id : string;
  client_secret : string;
  tenant_id : string
}.

Definition __init__ (token_url client_id client_secret tenant_id : string)
    : t :=
  {| token_url := token_url;
     client_id := client_id;
     client_secret := client_secret;
     tenant_id := tenant_id |}.

Definition request_token (self : t) (net : requests.transport)
    (sub : string) (act : gmap string string) (scope : list string)
    : result token_value :=
  let payload : gmap string requests.field :=
    <["grant_type" := requests.str_field "client_credentials"]>
    (<["scope" := requests.str_field (String.concat " " scope)]>
    (<["client_id" := requests.str_field (client_id self)]>
    (<["client_secret" := requests.str_field (client_secret self)]>
    (<["sub" := requests.str_field sub]>
    (<["act" := requests.dict_field act]> ∅))))) in
  post_for_token net
    {| requests.url := token_url self;
       requests.body_encoding := requests.form_data;
       requests.body := payload |}.
End EntraIDAdapter.

#[global] Instance Auth0_Adapter : Adapter Auth0Adapter.t :=
  {| request_token := Auth0Adapter.request_token |}.
#[global] Instance Okta_Adapter : Adapter OktaAdapter.t :=
  {| request_token := OktaAdapter.request_token |}.
#[global] Instance EntraID_Adapter : Adapter EntraIDAdapter.t :=
  {| request_token := EntraIDAdapter.request_token |}.

End adapters.

(** ** [code/in_session_token_request.py] *)

Module InSessionTokenRequest.
Import Py.

Record t (A : Type) : Type := Make { adapter : A }.
Arguments Make {A} adapter.
Arguments adapter {A} _.

(** [token_response.expires_in] and [token_response.act_assertion], read
    for the log record: a [dict] has neither attribute. *)
Definition read_attributes (token_response : adapters.token_value)
    : result adapters.token_value :=
  match token_response with
  | adapters.TokenResponse_value _ => Return token_response
  | adapters.dict_value _ =>
      Raise (AttributeError "'dict' object has no attribute 'expires_in'")
  | adapters.object_value class_name attributes =>
      if negb (bool_decide ("expires_in"%string ∈ attributes)) then
        Raise (AttributeError ("'" +:+ class_name
                               +:+ "' object has no attribute 'expires_in'"))
      else if negb (bool_decide ("act_assertion"%string ∈ attributes)) then
        Raise (AttributeError ("'" +:+ class_name
                               +:+ "' object has no attribute 'act_assertion'"))
      else Return token_response
  end.

Definition request_token {A} `{adapters.Adapter A} (self : t A)
    (net : requests.transport) (agent_id : string)
    (act : gmap string string) (scope : list string)
    : result adapters.token_value :=
  if negb (str_truthy agent_id) || negb (dict_truthy act)
     || negb (bool_decide (is_Some (act !! "sub")))
     || bool_decide (scope = [])
  then Raise (ValueError "Invalid inputs: agent_id, act.sub, and scope required")
  else
    let attempt :=
      match adapters.request_token (adapter self) net agent_id act scope with
      | Return token_response => read_attributes token_response
      | Raise e => Raise e
      end in
    match attempt with
    | Return token_response => Return token_response
    | Raise (TokenRequestError m c) => Raise (TokenRequestError m c)
    | Raise e =>
        Raise (TokenRequestError ("Unexpected error: " +:+ class_name e) None)
    end.

End InSessionTokenRequest.

(** ** Session records, in the words of the specification *)

Module Session.

Definition email_fields : list string :=
  ["email"; "user_email"; "userPrincipalName"; "mail"]%string.
Definition subject_fields : list string :=
  ["sub"; "user_id"; "oid"]%string.
Definition name_fields : list string :=
  ["name"; "display_name"; "displayName"]%string.

(** The value of the first of [fields] that the session holds with a
    non-empty value. *)
Fixpoint first_nonempty (session : gmap string string) (fields : list string)
    : option string :=
  match fields with
  | [] => None
  | f :: fs =>
      match session !! f with
      | Some v => if Py.str_truthy v then Some v else first_nonempty session fs
      | None => first_nonempty session fs
      end
  end.

(** The first of a list of looked-up values that is true. *)
Fixpoint first_true (vs : list (option string)) : option string :=
  match vs with
  | [] => None
  | v :: vs' => if Py.truthy v then v else first_true vs'
  end.

End Session.

(** ** [code/out_of_session_token_request.py], [request_token] *)

Module OutOfSessionRequest.
Import Py.

(** The object of [OutOfSessionTokenRequest] with its adapter. *)
Record t (A : Type) : Type := Make {
  adapter : A;
  verifier : OutOfSessionTokenRequest.t
}.
Arguments Make {A} adapter verifier.
Arguments adapter {A} _.
Arguments verifier {A} _.

(** [token_response.expires_in], read for the log record. *)
Definition read_expires_in (token_response : adapters.token_value)
    : result adapters.token_value :=
  match token_response with
  | adapters.TokenResponse_value _ => Return token_response
  | adapters.dict_value _ =>
      Raise (AttributeError "'dict' object has no attribute 'expires_in'")
  | adapters.object_value class_name attributes =>
      if negb (bool_decide ("expires_in"%string ∈ attributes)) then
        Raise (AttributeError ("'" +:+ class_name
                               +:+ "' object has no attribute 'expires_in'"))
      else Return token_response
  end.

Definition request_token {A} `{adapters.Adapter A} (self : t A)
    (net : requests.transport) (agent_id : string)
    (act : gmap string string) (scope : list string)
    : result adapters.token_value :=
  if negb (str_truthy agent_id) || negb (dict_truthy act)
     || negb (bool_decide (is_Some (act !! "sub")))
     || bool_decide (scope = [])
  then Raise (ValueError "Invalid inputs")
  else
    let attempt :=
      match adapters.request_token (adapter self) net agent_id act scope with
      | Return token_response => read_expires_in token_response
      | Raise e => Raise e
      end in
    match attempt with
    | Return token_response => Return token_response
    | Raise (TokenRequestError m c) => Raise (TokenRequestError m c)
    | Raise e =>
        Raise (TokenRequestError ("Unexpected error: " +:+ class_name e) None)
    end.

End OutOfSessionRequest.

(** ** [code/python/base_adapter.py], the helpers *)

Module base_adapter.
Import Py.

(** [BaseAdapter._validate_act] *)
Definition _validate_act (act : gmap string string) : result unit :=
  if negb (dict_truthy act) then
    Raise (ValueError "Act claim cannot be empty")
  else if negb (bool_decide (is_Some (act !! "sub"))) then
    Raise (ValueError "Act claim must contain 'sub' field")
  else if negb (truthy (act !! "sub")) then
    Raise (ValueError "Act claim 'sub' field cannot be empty")
  else Return tt.

(** The module-level [validate_adapter_config] *)
Definition validate_adapter_config (config : gmap string string)
    (required_fields : list string) : result unit :=
  let missing := filter (λ f, config !! f = None) required_fields in
  if negb (bool_decide (missing = [])) then
    Raise (ValueError ("Missing required configuration fields: "
                       +:+ String.concat ", " missing))
  else Return tt.

(** [TokenResponse.__repr__] *)
Definition __repr__ (self : BaseAdapter.TokenResponse) : string :=
  "TokenResponse("
  +:+ "token_type=" +:+ BaseAdapter.token_type self +:+ ", "
  +:+ "expires_in=" +:+ pretty (BaseAdapter.expires_in self) +:+ ", "
  +:+ "scope=" +:+ BaseAdapter.scope self +:+ ", "
  +:+ "access_token=***REDACTED***, "
  +:+ "act_assertion="
  +:+ (if truthy (BaseAdapter.act_assertion self) then "***REDACTED***"
       else "None")
  +:+ ")".

(** [c in s] for a one-character string [c] *)
Fixpoint contains_char (c : Ascii.ascii) (s : string) : bool :=
  match s with
  | EmptyString => false
  | String d s' => Ascii.eqb c d || contains_char c s'
  end.

(** [BaseAdapter._sanitize_identifier]; [sha256_hexdigest s] stands for
    [hashlib.sha256(s.encode('utf-8')).hexdigest()]. *)
Definition _sanitize_identifier (sha256_hexdigest : string → string)
    (identifier : string) : string :=
  if negb (str_truthy identifier) then "unknown"
  else
    let hash_hex := String.substring 0 12 (sha256_hexdigest identifier) in
    let prefix :=
      if contains_char "@"%char identifier then "user"
      else if startswith identifier "0oa" || startswith identifier "a1b2"
      then "app"
      else "id" in
    prefix +:+ "_" +:+ hash_hex.


End base_adapter.

(** ** Sessions of any values

    [extract_act_from_session] takes a [Dict[str, any]]: nothing makes
    the values of a session strings.  A string is a value [VStr] and
    stands for a text that has a UTF-8 encoding; every object other than
    [None], a [bool], an [int] or a [str] is a [VObject], known by the
    name of its class and its truth value, and has no [encode] method (of
    the built-in types only [str] has one). *)

Module PyValue.

Inductive value : Type :=
| VNone
| VBool (b : bool)
| VInt (n : Z)
| VStr (s : string)
| VObject (class_name : string) (truth : bool).

(** [type(v).__name__] *)
Definition type_name (v : value) : string :=
  match v with
  | VNone => "NoneType"
  | VBool _ => "bool"
  | VInt _ => "int"
  | VStr _ => "str"
  | VObject class_name _ => class_name
  end.

(** Truth value: [None], [False], [0] and [''] are false. *)
Definition truthy (v : value) : bool :=
  match v with
  | VNone => false
  | VBool b => b
  | VInt n => negb (n =? 0)%Z
  | VStr s => Py.str_truthy s
  | VObject _ truth => truth
  end.

(** [d.get(k)] *)
Definition get (d : gmap string value) (k : string) : value :=
  default VNone (d !! k).

(** [a or b] *)
Definition or_ (a b : value) : value := if truthy a then a else b.

(** A value that is a string or [None], as [Py] has it. *)
Definition of_option (v : option string) : value :=
  match v with
  | Some s => VStr s
  | None => VNone
  end.

End PyValue.

(** ** [code/python/hybrid_sender.py], over sessions of any values *)

Module hybrid_sender.
Import Py.
Import PyValue (value, VNone, VBool, VInt, VStr, VObject).

Local Notation "a 'or' b" := (PyValue.or_ a b)
  (at level 72, left associativity).

(** [HybridSender._sanitize_identifier]: [identifier.encode('utf-8')]
    raises on a true value that is not a string.  [sha256_hexdigest s]
    stands for [hashlib.sha256(s.encode('utf-8')).hexdigest()]. *)
Definition _sanitize_identifier (sha256_hexdigest : string → string)
    (identifier : value) : result string :=
  if negb (PyValue.truthy identifier) then Return "unknown"%string
  else
    match identifier with
    | VStr s =>
        let hash_hex := String.substring 0 12 (sha256_hexdigest s) in
        let prefix :=
          if base_adapter.contains_char "@"%char s then "user" else "id" in
        Return (prefix +:+ "_" +:+ hash_hex)
    | _ =>
        Raise (AttributeError ("'" +:+ PyValue.type_name identifier
                               +:+ "' object has no attribute 'encode'"))
    end.

(** [HybridSender.extract_act_from_session].  The session is a
    dictionary, so of [not session or not isinstance(session, dict)] the
    first test decides.  The call of [_sanitize_identifier] is the one
    made for the log record, before the act is returned. *)
Definition extract_act_from_session (sha256_hexdigest : string → string)
    (session : gmap string value) : result (gmap string value) :=
  if negb (dict_truthy session) then
    Raise (ValueError "Session must be a dictionary")
  else
    let email := PyValue.get session "email"
                 or PyValue.get session "user_email"
                 or PyValue.get session "userPrincipalName"
                 or PyValue.get session "mail" in
    if negb (PyValue.truthy email) then
      Raise (ValueError "Session must contain email")
    else
      let sub := PyValue.get session "sub" or PyValue.get session "user_id"
                 or PyValue.get session "oid" or email in
      let name := PyValue.get session "name"
                  or PyValue.get session "display_name"
                  or PyValue.get session "displayName" in
      let act : gmap string value :=
        <["email" := email]> (<["sub" := sub]> ∅) in
      let act := if PyValue.truthy name then <["name" := name]> act
                 else act in
      match _sanitize_identifier sha256_hexdigest sub with
      | Raise e => Raise e
      | Return sub_hash => Return act
      end.


(** The first of a list of values that is true. *)
Fixpoint first_true (vs : list value) : option value :=
  match vs with
  | [] => None
  | v :: vs' => if PyValue.truthy v then Some v else first_true vs'
  end.

(** The outcome of a call as a caller sees it when all values are
    strings. *)
Definition of_strings (r : result (gmap string string))
    : result (gmap string value) :=
  match r with
  | Return act => Return (VStr <$> act)
  | Raise e => Raise e
  end.

End hybrid_sender.

(** ** [code/in_session_api_call.py] and
       [code/python/out_of_session_api_call.py] *)

Module api_call.
Import Py.

(** The arguments of [session.request]. *)
Record api_request : Type := ApiRequest {
  method : string;
  url : string;
  headers : gmap string string;
  json : option (gmap string string);
  timeout : Z;
  verify : bool
}.

(** [session.request]: the response the session ends with, retries
    included, or the exception it raises. *)
Definition session : Type := api_request → result requests.Response.

Module InSessionAPICall.

Record t : Type := Make { timeout_seconds : Z; http : session }.

Definition _prepare_headers (token_response : BaseAdapter.TokenResponse)
    : gmap string string :=
  let headers : gmap string string :=
    {[ "Authorization"%string :=
         "Bearer " +:+ BaseAdapter.access_token token_response ]} in
  if truthy (BaseAdapter.act_assertion token_response) then
    <["X-Act-Assertion" :=
        str_of (BaseAdapter.act_assertion token_response)]> headers
  else headers.

Definition call_api (self : t) (token_response : BaseAdapter.TokenResponse)
    (api_url : string) (method : string)
    (json_data : option (gmap string string)) : result requests.Response :=
  if negb (startswith api_url "https://") then
    Raise (ValueError "API URL must use HTTPS")
  else
    let headers := _prepare_headers token_response in
    let headers :=
      if match json_data with Some d => dict_truthy d | None => false end
      then <["Content-Type" := "application/json"%string]> headers
      else headers in
    match http self {| method := method; url := api_url; headers := headers;
                       json := json_data; timeout := timeout_seconds self;
                       verify := true |} with
    | Return response => Return response
    | Raise e => Raise e
    end.

End InSessionAPICall.

Module OutOfSessionAPICall.

Record t : Type := Make { timeout_seconds : Z; http : session }.

Definition _prepare_headers (token_response : BaseAdapter.TokenResponse)
    : gmap string string :=
  let headers : gmap string string :=
    {[ "Authorization"%string :=
         "Bearer " +:+ BaseAdapter.access_token token_response ]} in
  if truthy (BaseAdapter.act_assertion token_response) then
    <["X-Act-Assertion" :=
        str_of (BaseAdapter.act_assertion token_response)]> headers
  else headers.

Definition call_api (self : t) (token_response : BaseAdapter.TokenResponse)
    (api_url : string) (method : string)
    (json_data : option (gmap string string)) : result requests.Response :=
  if negb (startswith api_url "https://") then
    Raise (ValueError "API URL must use HTTPS")
  else
    let headers := _prepare_headers token_response in
    let headers :=
      if match json_data with Some d => dict_truthy d | None => false end
      then <["Content-Type" := "application/json"%string]> headers
      else headers in
    match http self {| method := method; url := api_url; headers := headers;
                       json := json_data; timeout := timeout_seconds self;
                       verify := true |} with
    | Return response => Return response
    | Raise e => Raise e
    end.

End OutOfSessionAPICall.

End api_call.

(** ** [agents/python/sender/hybrid_sender.py] *)

Module agents_sender.
Import Py.

Record t : Type := Make {
  private_key_pem : option jwt.rsa_private_key;
  tls_verify : bool
}.

Definition prepare_in_session_act (self : t)
    (human_identity : gmap string string) : gmap string string :=
  human_identity.

(** [now] is [int(time.time())] as read by this call. *)
Definition prepare_out_of_session_act (self : t)
    (human_identity : gmap string string) (agent_endpoint : string)
    (ttl_seconds : Z) (now : Z) : result jwt.token :=
  match private_key_pem self with
  | None =>
      Raise (ValueError "Private key required for out-of-session JWT signing.")
  | Some key =>
      let payload := {|
        jwt.iss := None;
        jwt.sub := None;
        jwt.aud := Some agent_endpoint;
        jwt.exp := Some (now + ttl_seconds)%Z;
        jwt.iat := Some now;
        jwt.jti := None;
        jwt.act := Some human_identity |} in
      Return (jwt.encode payload key)
  end.

End agents_sender.

(** ** Sequences of verifier calls: the object at the end *)

Module Sequences.

Fixpoint run_state (self : OutOfSessionTokenRequest.t)
    (calls : list OutOfSessionTokenRequest.call)
    : OutOfSessionTokenRequest.t :=
  match calls with
  | [] => self
  | c :: cs =>
      run_state
        (OutOfSessionTokenRequest.receive_and_verify_act_jwt self
           (OutOfSessionTokenRequest.call_jwt c)
           (OutOfSessionTokenRequest.call_audience c)
           (OutOfSessionTokenRequest.call_time c)).2 cs
  end.

(** Call [c] presents the non-empty nonce [j] in a token that verifies
    under [key] and whose registered claims pass at the call. *)
Definition presents (key : jwt.rsa_public_key) (j : string)
    (c : OutOfSessionTokenRequest.call) : Prop :=
  j ≠ ""%string
  ∧ Assertion.signature_ok key (OutOfSessionTokenRequest.call_jwt c) = true
  ∧ ∃ p, Assertion.payload (OutOfSessionTokenRequest.call_jwt c) = Some p
         ∧ jwt.jti p = Some j
         ∧ Assertion.valid_for p (OutOfSessionTokenRequest.call_audience c)
             (OutOfSessionTokenRequest.call_time c).

End Sequences.

(** ** Sample data *)

Module Samples.

Definition app_key : jwt.rsa_private_key := jwt.RSAPrivateKey 1.
Definition other_key : jwt.rsa_private_key := jwt.RSAPrivateKey 2.
Definition agent_url : string := "https://agent.example.com".
Definition alice : gmap string string := {[ "sub"%string := "alice"%string ]}.

(** A sender holding the application key and a fresh verifier holding its
    public half. *)
Definition sender : HybridSender.t := HybridSender.Make (Some app_key).
Definition agent : OutOfSessionTokenRequest.t :=
  {| OutOfSessionTokenRequest._app_public_key := jwt.public_key app_key;
     OutOfSessionTokenRequest._used_jtis := ∅ |}.

(** A payload issued at 1000 for [agent_url], expiring at 1060. *)
Definition payload_with (jti : option string)
    (act : option (gmap string string)) : jwt.claims :=
  {| jwt.iss := Some "application"%string;
     jwt.sub := Some "application"%string;
     jwt.aud := Some agent_url;
     jwt.exp := Some 1060%Z;
     jwt.iat := Some 1000%Z;
     jwt.jti := jti;
     jwt.act := act |}.

(** An unsigned token: algorithm [none], empty signature. *)
Definition unsigned_assertion : jwt.token :=
  jwt.compact
    {| jwt.jws_header := {| jwt.alg := "none"; jwt.typ := "JWT" |};
       jwt.jws_payload := payload_with (Some "n-1"%string) (Some alice);
       jwt.jws_signature := jwt.octets "" |}.

(** An identity provider that answers every request with status 500. *)
Definition provider_500 : requests.transport :=
  λ _, Some {| requests.status_code := 500;
               requests.text := "server_error";
               requests.parsed := None |}.

Definition auth0 : adapters.Auth0Adapter.t :=
  adapters.Auth0Adapter.__init__ "tenant.auth0.com" "agent-1" "s3cret".

Definition alice_user : gmap string string :=
  {[ "sub"%string := "user:alice@example.com"%string ]}.



(** A configuration with an [http://] token endpoint. *)
Definition insecure_url : string := "http://login.example.com/token".
Definition insecure_config : gmap string string :=
  {[ "token_url"%string := insecure_url;
     "client_id"%string := "agent-1"%string;
     "client_secret"%string := "s3cret"%string ]}.

End Samples.

(** ** Token requests

    What the token requests of the three vendor adapters have in common:
    the call names [token_url], and the body it sends there carries the
    grant type, the client secret, the agent as [sub] and the joined
    scopes.  Of the act the body carries the whole object when the payload
    is passed as [json=], and the key names alone when it is passed as
    [data=]. *)


(** Neither orchestrator returns over adapter [a]. *)
Definition never_returns {A} `{adapters.Adapter A} (a : A)
    (v0 : OutOfSessionTokenRequest.t) (net : requests.transport)
    (agent_id : string) (act : gmap string string) (scope : list string)
    : Prop :=
  Py.is_return (InSessionTokenRequest.request_token
                  (InSessionTokenRequest.Make a) net agent_id act scope)
  = false
  ∧ Py.is_return (OutOfSessionRequest.request_token
                 (OutOfSessionRequest.Make a v0) net agent_id act scope)
    = false.

(** ** A scripted adapter

    An adapter that answers every token request with the outcome it was
    built with, standing for an adapter of the kind [code/] expects. *)

Module Fixtures.

Record scripted : Type := Scripted {
  answer : Py.result adapters.token_value
}.

#[global] Instance scripted_Adapter : adapters.Adapter scripted :=
  {| adapters.request_token := λ a _ _ _ _, answer a |}.

Definition bearer : BaseAdapter.TokenResponse :=
  {| BaseAdapter.access_token := "tok-1";
     BaseAdapter.token_type := "Bearer";
     BaseAdapter.expires_in := 3600;
     BaseAdapter.scope := "read";
     BaseAdapter.act_assertion := None |}.


(** A session that answers every request with status 403. *)
Definition forbidden : api_call.session :=
  λ _, Py.Return {| requests.status_code := 403;
                    requests.text := "forbidden";
                    requests.parsed := None |}.

End Fixtures.

(** * Properties *)

Import Py Taxonomy Assertion.
Local Open Scope Z_scope.

(** ** Strings and truth values *)

Lemma str_truthy_true (s : string) : str_truthy s = true ↔ s ≠ ""%string.
Proof.
  unfold str_truthy. rewrite negb_true_iff.
  split.
  - intros H ->. discriminate.
  - intros H. apply String.eqb_neq. exact H.
Qed.

Lemma str_truthy_false (s : string) : str_truthy s = false ↔ s = ""%string.
Proof.
  unfold str_truthy. rewrite negb_false_iff. apply String.eqb_eq.
Qed.

Lemma startswith_https_nonempty (s : string) :
  startswith s "https://" = true → str_truthy s = true.
Proof.
  destruct s as [|c s]; [discriminate | reflexivity].
Qed.

Lemma dict_truthy_lookup {V} (d : gmap string V) (k : string) (v : V) :
  d !! k = Some v → dict_truthy d = true.
Proof.
  intros Hk. unfold dict_truthy.
  rewrite negb_true_iff, bool_decide_eq_false.
  intros ->. rewrite lookup_empty in Hk. discriminate.
Qed.

(** ** What [jwt.decode] does with a token *)

Section decode.
Variable key : jwt.rsa_public_key.

Lemma validate_claims_passes (p : jwt.claims) (audience : string) (now : Z) :
  jwt.validate_claims p audience now = None ↔
  issued_by p now ∧ unexpired p now ∧ jwt.aud p = Some audience
  ∧ audience ≠ ""%string.
Proof.
  unfold jwt.validate_claims, issued_by, unexpired.
  destruct (jwt.iat p) as [i|], (jwt.exp p) as [e|], (jwt.aud p) as [a|];
    repeat match goal with
    | |- context [(?x <? ?y)] => destruct (Z.ltb_spec x y)
    | |- context [(?x <=? ?y)] => destruct (Z.leb_spec x y)
    | |- context [str_truthy ?s] =>
        let E := fresh "E" in destruct (str_truthy s) eqn:E; simpl
    | |- context [String.eqb ?s ?u] =>
        let E := fresh "E" in destruct (String.eqb_spec s u); simpl
    end;
    split;
    try discriminate;
    try (intros (Hi & He & Ha & Hn);
         first [ specialize (Hi _ eq_refl); lia
               | specialize (He _ eq_refl); lia
               | congruence
               | injection Ha as ->; apply str_truthy_false in E; congruence ]);
    try (intros _; repeat split;
         first [ intros ? [= <-]; lia
               | discriminate
               | congruence
               | subst; apply str_truthy_true; assumption ]).
Qed.

Lemma decode_signed (t : jwt.token) (p : jwt.claims) (audience : string)
    (now : Z) :
  signature_ok key t = true → payload t = Some p →
  jwt.decode t key ["RS256"%string] audience now =
    match jwt.validate_claims p audience now with
    | Some e => inr e
    | None => inl p
    end.
Proof.
  destruct t as [j|why]; simpl; [|discriminate].
  intros [Halg Hsig]%andb_prop [= <-].
  apply String.eqb_eq in Halg.
  unfold jwt.verify_signature. rewrite Halg, Hsig.
  rewrite bool_decide_eq_true_2 by (apply list_elem_of_singleton; reflexivity).
  reflexivity.
Qed.

Lemma decode_unsigned (t : jwt.token) (audience : string) (now : Z) :
  signature_ok key t = false →
  jwt.decode t key ["RS256"%string] audience now =
    inr match t with
        | jwt.not_compact why => jwt.DecodeError why
        | jwt.compact j =>
            if String.eqb (jwt.alg (jwt.jws_header j)) "RS256"
            then jwt.InvalidSignatureError "Signature verification failed"
            else jwt.InvalidAlgorithmError
                   "The specified alg value is not allowed"
        end.
Proof.
  destruct t as [j|why]; simpl; [|reflexivity].
  unfold jwt.verify_signature.
  destruct (String.eqb_spec (jwt.alg (jwt.jws_header j)) "RS256") as [E|E].
  - rewrite E. intros Hsig. simpl in Hsig. rewrite Hsig.
    rewrite bool_decide_eq_true_2 by (apply list_elem_of_singleton; reflexivity).
    reflexivity.
  - intros _.
    rewrite (bool_decide_eq_false_2 (_ ∈ _))
      by (rewrite list_elem_of_singleton; exact E).
    rewrite orb_true_r. reflexivity.
Qed.

Lemma encode_signature_ok (p : jwt.claims) (k : jwt.rsa_private_key) :
  key = jwt.public_key k → signature_ok key (jwt.encode p k) = true.
Proof.
  intros ->. simpl. rewrite !bool_decide_eq_true_2 by reflexivity. reflexivity.
Qed.

End decode.

(** ** The out-of-session verifier *)

Section verifier.
Import OutOfSessionTokenRequest.

Lemma extract_act_returns (p : jwt.claims) (act : gmap string string)
    (s : string) :
  jwt.act p = Some act → act !! "sub" = Some s → extract_act p = Return act.
Proof.
  intros Hact Hsub. unfold extract_act. rewrite Hact.
  rewrite (dict_truthy_lookup _ _ _ Hsub), Hsub.
  rewrite bool_decide_eq_true_2 by eauto. reflexivity.
Qed.

Lemma extract_act_malformed (p : jwt.claims) :
  act_malformed p → extract_act p = Raise MalformedClaim.
Proof.
  unfold act_malformed, extract_act.
  destruct (jwt.act p) as [a|]; [|reflexivity].
  intros Hsub. rewrite Hsub.
  rewrite (bool_decide_eq_false_2 (is_Some None)) by (intros [? [=]]).
  rewrite orb_true_r. reflexivity.
Qed.

Lemma extract_act_outcome (p : jwt.claims) :
  (∃ act, extract_act p = Return act ∧ jwt.act p = Some act)
  ∨ extract_act p = Raise MalformedClaim.
Proof.
  unfold extract_act. destruct (jwt.act p) as [a|]; [|right; reflexivity].
  destruct (negb (dict_truthy a) || negb (bool_decide (is_Some (a !! "sub"))));
    [right; reflexivity | left; eauto].
Qed.

(** A token that [jwt.decode] rejects leaves the object as it was. *)
Lemma receive_rejected (self : t) (act_jwt : jwt.token) (audience : string)
    (now : Z) (e : jwt.error) :
  jwt.decode act_jwt (_app_public_key self) ["RS256"%string] audience now
    = inr e →
  receive_and_verify_act_jwt self act_jwt audience now
    = (Raise (handler e), self).
Proof.
  intros H. unfold receive_and_verify_act_jwt. rewrite H. reflexivity.
Qed.

(** The three ways a decoded payload is dealt with. *)
Lemma receive_decoded (self : t) (act_jwt : jwt.token) (p : jwt.claims)
    (audience : string) (now : Z) :
  signature_ok (_app_public_key self) act_jwt = true →
  payload act_jwt = Some p →
  jwt.validate_claims p audience now = None →
  receive_and_verify_act_jwt self act_jwt audience now =
    match jwt.jti p with
    | Some j =>
        if str_truthy j then
          if bool_decide (j ∈ _used_jtis self)
          then (Raise ReplayDetected, self)
          else (extract_act p,
                {| _app_public_key := _app_public_key self;
                   _used_jtis := {[ j ]} ∪ _used_jtis self |})
        else (extract_act p, self)
    | None => (extract_act p, self)
    end.
Proof.
  intros Hsig Hp Hv. unfold receive_and_verify_act_jwt.
  rewrite (decode_signed _ _ _ _ _ Hsig Hp), Hv.
  destruct (jwt.jti p) as [j|]; reflexivity.
Qed.

Lemma receive_invalid_claims (self : t) (act_jwt : jwt.token) (p : jwt.claims)
    (audience : string) (now : Z) (e : jwt.error) :
  signature_ok (_app_public_key self) act_jwt = true →
  payload act_jwt = Some p →
  jwt.validate_claims p audience now = Some e →
  receive_and_verify_act_jwt self act_jwt audience now
    = (Raise (handler e), self).
Proof.
  intros Hsig Hp Hv. apply receive_rejected.
  rewrite (decode_signed _ _ _ _ _ Hsig Hp), Hv. reflexivity.
Qed.

(** The set of consumed nonces only grows. *)
Lemma used_jtis_grow (self : t) (act_jwt : jwt.token) (audience : string)
    (now : Z) :
  _used_jtis self
    ⊆ _used_jtis (receive_and_verify_act_jwt self act_jwt audience now).2.
Proof.
  unfold receive_and_verify_act_jwt.
  destruct (jwt.decode _ _ _ _ _) as [p|e]; simpl; [|done].
  destruct (truthy (jwt.jti p)); [|done].
  destruct (bool_decide _); simpl; set_solver.
Qed.

(** A call that returns for a token with a non-empty nonce found the nonce
    unused and leaves it consumed. *)
Lemma return_consumes (self : t) (act_jwt : jwt.token) (audience : string)
    (now : Z) (j : string) :
  j ≠ ""%string → carries_jti j act_jwt = true →
  is_return (receive_and_verify_act_jwt self act_jwt audience now).1 = true →
  (j ∉ _used_jtis self)
  ∧ (j ∈ _used_jtis (receive_and_verify_act_jwt self act_jwt audience now).2).
Proof.
  intros Hj Hc. unfold carries_jti in Hc.
  destruct (payload act_jwt) as [p|] eqn:Hp; [|discriminate].
  apply bool_decide_eq_true in Hc.
  unfold receive_and_verify_act_jwt.
  destruct (jwt.decode _ _ _ _ _) as [p'|e] eqn:Hd; simpl; [|discriminate].
  assert (p' = p) as ->.
  { destruct act_jwt as [jw|]; simpl in *; [|discriminate].
    injection Hp as <-.
    destruct (jwt.verify_signature _ _ _); [discriminate|].
    destruct (jwt.validate_claims _ _ _); [discriminate|].
    congruence. }
  rewrite Hc. simpl. apply str_truthy_true in Hj. rewrite Hj.
  destruct (bool_decide (j ∈ _used_jtis self)) eqn:Hu; simpl; [discriminate|].
  apply bool_decide_eq_false in Hu. intros _. split; [exact Hu | set_solver].
Qed.

End verifier.

Section claims_on_the_verifier.
Import OutOfSessionTokenRequest.

(** C1 (round trip).  An act with a non-empty ['sub'], signed by
    [prepare_out_of_session_act] for an HTTPS audience and handed to
    [receive_and_verify_act_jwt] of a verifier holding the matching public
    key, with the same audience, at a time from the signing on and before
    the expiry, the nonce not consumed before: signing returns an
    assertion, and verifying it returns the act that was signed. *)
Theorem prepare_then_verify_round_trip
    (signing_key : jwt.rsa_private_key) (act : gmap string string)
    (s : string) (agent_endpoint : string) (ttl_seconds signed_at : Z)
    (nonce : string) (verifier : t) (verified_at : Z) :
  act !! "sub" = Some s → s ≠ ""%string →
  startswith agent_endpoint "https://" = true →
  _app_public_key verifier = jwt.public_key signing_key →
  signed_at ≤ verified_at < signed_at + ttl_seconds →
  nonce ∉ _used_jtis verifier →
  ∃ assertion,
    HybridSender.prepare_out_of_session_act
      (HybridSender.Make (Some signing_key)) act agent_endpoint ttl_seconds
      signed_at nonce = Return assertion
    ∧ (receive_and_verify_act_jwt verifier assertion agent_endpoint
         verified_at).1 = Return act.
Proof.
  intros Hsub _ Hhttps Hkey Htime Hfresh.
  unfold HybridSender.prepare_out_of_session_act. simpl.
  rewrite (dict_truthy_lookup _ _ _ Hsub), Hsub.
  rewrite bool_decide_eq_true_2 by eauto.
  rewrite Hhttps, (startswith_https_nonempty _ Hhttps). simpl.
  eexists. split; [reflexivity|].
  erewrite receive_decoded;
    [ | apply encode_signature_ok; exact Hkey | reflexivity | ].
  - simpl.
    destruct (str_truthy nonce); [|simpl; eapply extract_act_returns; eauto].
    rewrite bool_decide_eq_false_2 by exact Hfresh.
    simpl. eapply extract_act_returns; eauto.
  - apply validate_claims_passes. unfold issued_by, unexpired. simpl.
    repeat split.
    + intros i [= <-]. lia.
    + intros e [= <-]. lia.
    + apply str_truthy_true, startswith_https_nonempty, Hhttps.
Qed.

Lemma prepare_then_verify_round_trip_witness :
  ∃ assertion,
    HybridSender.prepare_out_of_session_act
      (HybridSender.Make (Some (jwt.RSAPrivateKey 1)))
      {[ "sub"%string := "alice"%string ]} "https://agent.example.com" 60
      1000 "n-1" = Return assertion
    ∧ (receive_and_verify_act_jwt
         {| _app_public_key := jwt.RSAPublicKey 1; _used_jtis := ∅ |}
         assertion "https://agent.example.com" 1059).1
      = Return {[ "sub"%string := "alice"%string ]}.
Proof.
  apply (prepare_then_verify_round_trip (jwt.RSAPrivateKey 1)
           {[ "sub"%string := "alice"%string ]} "alice"
           "https://agent.example.com" 60 1000 "n-1"
           {| _app_public_key := jwt.RSAPublicKey 1; _used_jtis := ∅ |} 1059).
  - reflexivity.
  - discriminate.
  - reflexivity.
  - reflexivity.
  - lia.
  - apply not_elem_of_empty.
Defined.

(** What a call that returns tells about the token. *)
Lemma receive_return_inv (self : t) (act_jwt : jwt.token) (audience : string)
    (now : Z) (act : gmap string string) (self' : t) :
  receive_and_verify_act_jwt self act_jwt audience now = (Return act, self') →
  ∃ p, payload act_jwt = Some p
       ∧ signature_ok (_app_public_key self) act_jwt = true
       ∧ jwt.validate_claims p audience now = None
       ∧ extract_act p = Return act.
Proof.
  intros H.
  destruct (signature_ok (_app_public_key self) act_jwt) eqn:Hsig.
  - destruct act_jwt as [jw|why]; [|discriminate].
    exists (jwt.jws_payload jw). split; [reflexivity|]. split; [reflexivity|].
    destruct (jwt.validate_claims (jwt.jws_payload jw) audience now) as [e|]
      eqn:Hv.
    + rewrite (receive_invalid_claims _ _ _ _ _ e Hsig eq_refl Hv) in H.
      discriminate.
    + split; [reflexivity|].
      rewrite (receive_decoded _ _ _ _ _ Hsig eq_refl Hv) in H.
      destruct (jwt.jti _) as [j|]; [destruct (str_truthy j)|];
        try destruct (bool_decide _); congruence.
  - rewrite (receive_rejected _ _ _ _ _ (decode_unsigned _ _ _ _ Hsig)) in H.
    discriminate.
Qed.

Lemma validate_claims_expired (p : jwt.claims) (audience : string) (now : Z) :
  issued_by p now → expired_at p now = true →
  jwt.validate_claims p audience now
    = Some (jwt.ExpiredSignatureError "Signature has expired").
Proof.
  unfold issued_by, expired_at, jwt.validate_claims. intros Hi He.
  destruct (jwt.iat p) as [i|].
  - destruct (Z.ltb_spec now i) as [Hlt|_];
      [specialize (Hi i eq_refl); lia|].
    destruct (jwt.exp p); [rewrite He; reflexivity | discriminate].
  - destruct (jwt.exp p); [rewrite He; reflexivity | discriminate].
Qed.

(** Once a nonce is consumed no call carrying it returns. *)
Lemma consumed_nonce_never_returns (j : string) (calls : list call) :
  j ≠ ""%string →
  ∀ self, j ∈ _used_jtis self →
    List.filter (consumed j) (run self calls) = [].
Proof.
  intros Hj. induction calls as [|c cs IH]; intros self Hin; [reflexivity|].
  simpl.
  pose proof (used_jtis_grow self (call_jwt c) (call_audience c) (call_time c))
    as Hgrow.
  pose proof (return_consumes self (call_jwt c) (call_audience c)
                (call_time c) j Hj) as Hret.
  destruct (receive_and_verify_act_jwt self (call_jwt c) (call_audience c)
              (call_time c)) as [r self'].
  simpl in *. unfold consumed at 1. simpl.
  destruct (carries_jti j (call_jwt c)) eqn:Hc; simpl.
  - destruct (is_return r) eqn:Hr.
    + destruct (Hret eq_refl eq_refl) as [Hnot _]. contradiction.
    + apply IH. clear -Hgrow Hin. set_solver.
  - apply IH. clear -Hgrow Hin. set_solver.
Qed.

(** C2, as the code has it.  For a non-empty nonce [j]: in any sequence of
    calls on one verifier at most one call carrying [j] returns; and when a
    call with an assertion carrying [j] has returned, a later call with the
    same assertion and audience raises: [Expired] once the assertion's [exp]
    is reached, [ReplayDetected] before. *)
Theorem nonce_consumed_at_most_once
    (j : string) (self : t) (calls : list call)
    (act_jwt : jwt.token) (p : jwt.claims) (audience : string)
    (now later : Z) (act : gmap string string) (self' : t) :
  j ≠ ""%string →
  (length (List.filter (consumed j) (run self calls)) ≤ 1)%nat
  ∧ (payload act_jwt = Some p → jwt.jti p = Some j →
     receive_and_verify_act_jwt self act_jwt audience now
       = (Return act, self') →
     now ≤ later →
     receive_and_verify_act_jwt self' act_jwt audience later
       = (Raise (if expired_at p later then Expired else ReplayDetected),
          self')).
Proof.
  intros Hj. split.
  - revert self. induction calls as [|c cs IH]; intros self; [simpl; lia|].
    simpl.
    pose proof (return_consumes self (call_jwt c) (call_audience c)
                  (call_time c) j Hj) as Hret.
    destruct (receive_and_verify_act_jwt self (call_jwt c) (call_audience c)
                (call_time c)) as [r self1].
    simpl in *. unfold consumed at 1. simpl.
    destruct (carries_jti j (call_jwt c)) eqn:Hc; simpl; [|apply IH].
    destruct (is_return r) eqn:Hr; [|apply IH].
    destruct (Hret eq_refl eq_refl) as [_ Hin].
    rewrite (consumed_nonce_never_returns j cs Hj self1 Hin). simpl. lia.
  - intros Hp Hjti Hfirst Hle.
    destruct (receive_return_inv _ _ _ _ _ _ Hfirst) as (p' & Hp' & Hsig & Hv & _).
    assert (p' = p) as -> by congruence.
    pose proof Hfirst as Hstate.
    rewrite (receive_decoded _ _ _ _ _ Hsig Hp Hv), Hjti in Hstate.
    apply str_truthy_true in Hj. rewrite Hj in Hstate.
    destruct (bool_decide (j ∈ _used_jtis self)); [discriminate|].
    injection Hstate as _ <-.
    apply validate_claims_passes in Hv as (Hi & He & Ha & Hn).
    assert (issued_by p later) as Hi'.
    { intros i Hiat. specialize (Hi i Hiat). lia. }
    destruct (expired_at p later) eqn:Hx.
    + rewrite (receive_invalid_claims
                 {| _app_public_key := _app_public_key self;
                    _used_jtis := {[ j ]} ∪ _used_jtis self |}
                 _ p _ _ _ Hsig Hp (validate_claims_expired _ _ _ Hi' Hx)).
      reflexivity.
    + erewrite receive_decoded; [ | exact Hsig | exact Hp | ].
      * rewrite Hjti, Hj. simpl.
        rewrite bool_decide_eq_true_2 by set_solver. reflexivity.
      * apply validate_claims_passes. repeat split; try assumption.
        intros e He'. unfold expired_at in Hx. rewrite He' in Hx.
        apply Z.leb_gt in Hx. exact Hx.
Qed.

Lemma nonce_consumed_at_most_once_witness :
  (length (List.filter (consumed "n-1")
     (run Samples.agent
        [ {| call_jwt := jwt.encode (Samples.payload_with (Some "n-1"%string)
                                       (Some Samples.alice)) Samples.app_key;
             call_audience := Samples.agent_url; call_time := 1001 |};
          {| call_jwt := jwt.encode (Samples.payload_with (Some "n-1"%string)
                                       (Some Samples.alice)) Samples.app_key;
             call_audience := Samples.agent_url; call_time := 1002 |} ]))
   ≤ 1)%nat
  ∧ receive_and_verify_act_jwt
      {| _app_public_key := jwt.public_key Samples.app_key;
         _used_jtis := {[ "n-1"%string ]} ∪ ∅ |}
      (jwt.encode (Samples.payload_with (Some "n-1"%string)
                     (Some Samples.alice)) Samples.app_key)
      Samples.agent_url 1002
    = (Raise ReplayDetected,
       {| _app_public_key := jwt.public_key Samples.app_key;
          _used_jtis := {[ "n-1"%string ]} ∪ ∅ |}).
Proof.
  pose proof (nonce_consumed_at_most_once "n-1" Samples.agent
    [ {| call_jwt := jwt.encode (Samples.payload_with (Some "n-1"%string)
                                   (Some Samples.alice)) Samples.app_key;
         call_audience := Samples.agent_url; call_time := 1001 |};
      {| call_jwt := jwt.encode (Samples.payload_with (Some "n-1"%string)
                                   (Some Samples.alice)) Samples.app_key;
         call_audience := Samples.agent_url; call_time := 1002 |} ]
    (jwt.encode (Samples.payload_with (Some "n-1"%string)
                   (Some Samples.alice)) Samples.app_key)
    (Samples.payload_with (Some "n-1"%string) (Some Samples.alice))
    Samples.agent_url 1001 1002 Samples.alice
    {| _app_public_key := jwt.public_key Samples.app_key;
       _used_jtis := {[ "n-1"%string ]} ∪ ∅ |}) as H.
  destruct H as [Hcount Hsecond]; [discriminate|].
  split; [exact Hcount|].
  apply Hsecond; [reflexivity | reflexivity | reflexivity | lia].
Defined.

(** C2, counterexample.  An assertion whose [jti] is the empty string is
    accepted twice in a row; and the second call with an assertion carrying
    a nonce, made when its [exp] is reached, raises [Expired], not
    [ReplayDetected]. *)
Lemma second_call_not_always_replay_detected :
  (receive_and_verify_act_jwt Samples.agent
     (jwt.encode (Samples.payload_with (Some ""%string) (Some Samples.alice))
        Samples.app_key) Samples.agent_url 1001
   = (Return Samples.alice, Samples.agent)
   ∧ receive_and_verify_act_jwt Samples.agent
       (jwt.encode (Samples.payload_with (Some ""%string) (Some Samples.alice))
          Samples.app_key) Samples.agent_url 1002
     = (Return Samples.alice, Samples.agent))
  ∧ (∃ self',
       receive_and_verify_act_jwt Samples.agent
         (jwt.encode (Samples.payload_with (Some "n-1"%string)
                        (Some Samples.alice)) Samples.app_key)
         Samples.agent_url 1001 = (Return Samples.alice, self')
       ∧ receive_and_verify_act_jwt self'
           (jwt.encode (Samples.payload_with (Some "n-1"%string)
                          (Some Samples.alice)) Samples.app_key)
           Samples.agent_url 1060 = (Raise Expired, self')
       ∧ Expired ≠ ReplayDetected).
Proof.
  split; [split; reflexivity|].
  eexists. split; [reflexivity|]. split; [reflexivity | discriminate].
Qed.

(** C3, as the code has it.  A token whose signature does not verify under
    the configured key with RS256 is rejected before any claim of its
    payload is looked at: the call raises and leaves the verifier, and so
    the set of consumed nonces, as it was.  The exception is
    [SignatureInvalid] when the header names RS256, and that of the
    catch-all clause when the header names another algorithm or the string
    is no compact serialization; it is never [Expired], [AudienceMismatch],
    [ReplayDetected] or [MalformedClaim]. *)
Theorem unverified_signature_rejected
    (self : t) (act_jwt : jwt.token) (audience : string) (now : Z) :
  signature_ok (_app_public_key self) act_jwt = false →
  ∃ e,
    receive_and_verify_act_jwt self act_jwt audience now = (Raise e, self)
    ∧ e = match act_jwt with
          | jwt.compact j =>
              if String.eqb (jwt.alg (jwt.jws_header j)) "RS256"
              then SignatureInvalid
              else InvalidToken "The specified alg value is not allowed"
          | jwt.not_compact why => InvalidToken why
          end
    ∧ e ≠ Expired ∧ e ≠ AudienceMismatch ∧ e ≠ ReplayDetected
    ∧ e ≠ MalformedClaim.
Proof.
  intros Hsig.
  rewrite (receive_rejected _ _ _ _ _ (decode_unsigned _ _ _ _ Hsig)).
  eexists. split; [reflexivity|].
  destruct act_jwt as [j|why]; simpl.
  - destruct (String.eqb _ _); simpl;
      (split; [reflexivity | repeat split; discriminate]).
  - split; [reflexivity | repeat split; discriminate].
Qed.

Lemma unverified_signature_rejected_witness :
  ∃ e,
    receive_and_verify_act_jwt Samples.agent
      (jwt.encode (Samples.payload_with (Some "n-1"%string)
                     (Some Samples.alice)) Samples.other_key)
      Samples.agent_url 1001 = (Raise e, Samples.agent)
    ∧ e = SignatureInvalid
    ∧ e ≠ Expired ∧ e ≠ AudienceMismatch ∧ e ≠ ReplayDetected
    ∧ e ≠ MalformedClaim.
Proof.
  apply (unverified_signature_rejected Samples.agent
           (jwt.encode (Samples.payload_with (Some "n-1"%string)
                          (Some Samples.alice)) Samples.other_key)
           Samples.agent_url 1001).
  reflexivity.
Defined.

(** C3, counterexample.  An unsigned token (algorithm [none]) is rejected
    by the catch-all clause, whose exception is not [SignatureInvalid]. *)
Lemma unsigned_assertion_not_signature_invalid :
  signature_ok (OutOfSessionTokenRequest._app_public_key Samples.agent)
    Samples.unsigned_assertion = false
  ∧ receive_and_verify_act_jwt Samples.agent Samples.unsigned_assertion
      Samples.agent_url 1001
    = (Raise (ValueError
                "Act JWT invalid: The specified alg value is not allowed"),
       Samples.agent)
  ∧ ValueError "Act JWT invalid: The specified alg value is not allowed"
    ≠ SignatureInvalid.
Proof.
  split; [reflexivity|]. split; [reflexivity | discriminate].
Qed.

(** An assertion that satisfies [exp > iat] and is past its [exp] was not
    issued later than the time of the call. *)
Lemma past_exp_issued_by (p : jwt.claims) (e now : Z) :
  exp_after_iat p → jwt.exp p = Some e → e < now → issued_by p now.
Proof.
  intros (i & e' & Hi & He' & Hlt) He Hnow i' Hi'.
  assert (e' = e) by congruence. assert (i' = i) by congruence. lia.
Qed.

(** C4.  A correctly signed assertion, not issued later than the time of the
    call (as is every assertion with [exp > iat] that is past its [exp]),
    handed to [receive_and_verify_act_jwt] at a time strictly after its
    [exp], is rejected with [Expired], whatever audience is expected and
    whatever nonces have been consumed; the verifier is left as it was. *)
Theorem expired_assertion_rejected
    (self : t) (act_jwt : jwt.token) (p : jwt.claims) (audience : string)
    (now e : Z) :
  signature_ok (_app_public_key self) act_jwt = true →
  payload act_jwt = Some p →
  jwt.exp p = Some e → e < now →
  issued_by p now →
  receive_and_verify_act_jwt self act_jwt audience now
    = (Raise Expired, self).
Proof.
  intros Hsig Hp He Hlt Hi.
  rewrite (receive_invalid_claims _ _ p _ _ _ Hsig Hp
             (validate_claims_expired p audience now Hi
                ltac:(unfold expired_at; rewrite He; apply Z.leb_le; lia))).
  reflexivity.
Qed.

Lemma expired_assertion_rejected_witness :
  receive_and_verify_act_jwt Samples.agent
    (jwt.encode (Samples.payload_with (Some "n-1"%string)
                   (Some Samples.alice)) Samples.app_key)
    Samples.agent_url 1061
  = (Raise Expired, Samples.agent).
Proof.
  apply (expired_assertion_rejected Samples.agent _
           (Samples.payload_with (Some "n-1"%string) (Some Samples.alice))
           Samples.agent_url 1061 1060).
  - reflexivity.
  - reflexivity.
  - reflexivity.
  - lia.
  - intros i [= <-]. lia.
Defined.

(** C5.  A correctly signed assertion that is unexpired and not issued later
    than the time of the call, issued for the audience [issued_for], handed
    to [receive_and_verify_act_jwt] with an expected audience that is not
    exactly [issued_for], is rejected with [AudienceMismatch]; the verifier
    is left as it was. *)
Theorem audience_mismatch_rejected
    (self : t) (act_jwt : jwt.token) (p : jwt.claims)
    (issued_for expected : string) (now : Z) :
  signature_ok (_app_public_key self) act_jwt = true →
  payload act_jwt = Some p →
  unexpired p now → issued_by p now →
  jwt.aud p = Some issued_for → issued_for ≠ ""%string →
  expected ≠ issued_for →
  receive_and_verify_act_jwt self act_jwt expected now
    = (Raise AudienceMismatch, self).
Proof.
  intros Hsig Hp Hx Hi Ha Hne Hdiff.
  rewrite (receive_invalid_claims _ _ p _ _
             (jwt.InvalidAudienceError "Audience doesn't match") Hsig Hp);
    [reflexivity|].
  unfold jwt.validate_claims, unexpired, issued_by in *. rewrite Ha.
  destruct (jwt.iat p) as [i|].
  - destruct (Z.ltb_spec now i); [specialize (Hi i eq_refl); lia|].
    destruct (jwt.exp p) as [e|].
    + destruct (Z.leb_spec e now); [specialize (Hx e eq_refl); lia|].
      apply str_truthy_true in Hne. rewrite Hne. simpl.
      destruct (String.eqb_spec issued_for expected); [congruence | reflexivity].
    + apply str_truthy_true in Hne. rewrite Hne. simpl.
      destruct (String.eqb_spec issued_for expected); [congruence | reflexivity].
  - destruct (jwt.exp p) as [e|].
    + destruct (Z.leb_spec e now); [specialize (Hx e eq_refl); lia|].
      apply str_truthy_true in Hne. rewrite Hne. simpl.
      destruct (String.eqb_spec issued_for expected); [congruence | reflexivity].
    + apply str_truthy_true in Hne. rewrite Hne. simpl.
      destruct (String.eqb_spec issued_for expected); [congruence | reflexivity].
Qed.

Lemma audience_mismatch_rejected_witness :
  receive_and_verify_act_jwt Samples.agent
    (jwt.encode (Samples.payload_with (Some "n-1"%string)
                   (Some Samples.alice)) Samples.app_key)
    "https://agent.example.com/" 1001
  = (Raise AudienceMismatch, Samples.agent).
Proof.
  apply (audience_mismatch_rejected Samples.agent _
           (Samples.payload_with (Some "n-1"%string) (Some Samples.alice))
           Samples.agent_url "https://agent.example.com/" 1001).
  - reflexivity.
  - reflexivity.
  - intros e [= <-]. lia.
  - intros i [= <-]. lia.
  - reflexivity.
  - discriminate.
  - discriminate.
Defined.

(** C9, as the code has it.  For a correctly signed assertion that carries a
    non-empty nonce not consumed before and whose act is missing or lacks
    ['sub']: a call at which the registered claims pass raises
    [MalformedClaim] and all the same adds the nonce to the consumed set,
    and a second call with the same assertion, made while the registered
    claims still pass, raises [ReplayDetected]. *)
Theorem nonce_consumed_before_act_is_checked
    (self : t) (act_jwt : jwt.token) (p : jwt.claims) (j : string)
    (audience : string) (now later : Z) :
  signature_ok (_app_public_key self) act_jwt = true →
  payload act_jwt = Some p →
  jwt.jti p = Some j → j ≠ ""%string → j ∉ _used_jtis self →
  act_malformed p →
  valid_for p audience now → valid_for p audience later →
  receive_and_verify_act_jwt self act_jwt audience now
    = (Raise MalformedClaim,
       {| _app_public_key := _app_public_key self;
          _used_jtis := {[ j ]} ∪ _used_jtis self |})
  ∧ receive_and_verify_act_jwt
      {| _app_public_key := _app_public_key self;
         _used_jtis := {[ j ]} ∪ _used_jtis self |}
      act_jwt audience later
    = (Raise ReplayDetected,
       {| _app_public_key := _app_public_key self;
          _used_jtis := {[ j ]} ∪ _used_jtis self |}).
Proof.
  intros Hsig Hp Hjti Hj Hfresh Hact Hnow Hlater.
  apply validate_claims_passes in Hnow, Hlater.
  apply str_truthy_true in Hj.
  split.
  - rewrite (receive_decoded _ _ _ _ _ Hsig Hp Hnow), Hjti, Hj.
    rewrite bool_decide_eq_false_2 by exact Hfresh.
    rewrite (extract_act_malformed _ Hact). reflexivity.
  - rewrite (receive_decoded
               {| _app_public_key := _app_public_key self;
                  _used_jtis := {[ j ]} ∪ _used_jtis self |}
               _ _ _ _ Hsig Hp Hlater), Hjti, Hj.
    simpl. rewrite bool_decide_eq_true_2 by set_solver. reflexivity.
Qed.

Lemma nonce_consumed_before_act_is_checked_witness :
  receive_and_verify_act_jwt Samples.agent
    (jwt.encode (Samples.payload_with (Some "n-1"%string) None)
       Samples.app_key) Samples.agent_url 1001
  = (Raise MalformedClaim,
     {| _app_public_key := jwt.public_key Samples.app_key;
        _used_jtis := {[ "n-1"%string ]} ∪ ∅ |})
  ∧ receive_and_verify_act_jwt
      {| _app_public_key := jwt.public_key Samples.app_key;
         _used_jtis := {[ "n-1"%string ]} ∪ ∅ |}
      (jwt.encode (Samples.payload_with (Some "n-1"%string) None)
         Samples.app_key) Samples.agent_url 1002
    = (Raise ReplayDetected,
       {| _app_public_key := jwt.public_key Samples.app_key;
          _used_jtis := {[ "n-1"%string ]} ∪ ∅ |}).
Proof.
  apply (nonce_consumed_before_act_is_checked Samples.agent
           (jwt.encode (Samples.payload_with (Some "n-1"%string) None)
              Samples.app_key)
           (Samples.payload_with (Some "n-1"%string) None) "n-1"
           Samples.agent_url 1001 1002).
  - reflexivity.
  - reflexivity.
  - reflexivity.
  - discriminate.
  - apply not_elem_of_empty.
  - exact I.
  - repeat split; [intros i [= <-]; lia | intros e [= <-]; lia | discriminate].
  - repeat split; [intros i [= <-]; lia | intros e [= <-]; lia | discriminate].
Defined.

(** C9, counterexample.  An assertion that carries the empty string as its
    [jti] and no act: the first call raises [MalformedClaim] and consumes
    nothing, and the second call raises [MalformedClaim] again. *)
Lemma empty_jti_not_consumed_on_error :
  receive_and_verify_act_jwt Samples.agent
    (jwt.encode (Samples.payload_with (Some ""%string) None) Samples.app_key)
    Samples.agent_url 1001
  = (Raise MalformedClaim, Samples.agent)
  ∧ receive_and_verify_act_jwt Samples.agent
      (jwt.encode (Samples.payload_with (Some ""%string) None) Samples.app_key)
      Samples.agent_url 1002
    = (Raise MalformedClaim, Samples.agent)
  ∧ MalformedClaim ≠ ReplayDetected.
Proof.
  split; [reflexivity|]. split; [reflexivity | discriminate].
Qed.

End claims_on_the_verifier.

(** ** The hybrid sender *)

Section claims_on_the_sender.
Import HybridSender.

(** The three checks come in the order key, act, endpoint, and nothing
    else makes the call raise. *)
Lemma prepare_out_of_session_act_raises
    (self : t) (act : gmap string string) (agent_endpoint : string)
    (ttl_seconds now : Z) (nonce : string) (e : exn) :
  prepare_out_of_session_act self act agent_endpoint ttl_seconds now nonce
    = Raise e →
  (e = SigningKeyMissing ∧ _private_key self = None)
  ∨ (e = InvalidClaim ∧ is_Some (_private_key self) ∧ act !! "sub" = None)
  ∨ (e = InvalidAssertionRequest ∧ is_Some (_private_key self)
     ∧ is_Some (act !! "sub")
     ∧ startswith agent_endpoint "https://" = false).
Proof.
  unfold prepare_out_of_session_act.
  destruct (_private_key self) as [key|]; [|intros [= <-]; left; done].
  destruct (act !! "sub") as [s|] eqn:Hsub.
  - rewrite (dict_truthy_lookup _ _ _ Hsub).
    rewrite bool_decide_eq_true_2 by eauto. simpl.
    destruct (startswith agent_endpoint "https://") eqn:Hhttps.
    + rewrite (startswith_https_nonempty _ Hhttps). discriminate.
    + rewrite orb_true_r. intros [= <-]. right. right. eauto 10.
  - rewrite (bool_decide_eq_false_2 (is_Some None)) by (intros [? [=]]).
    rewrite orb_true_r. intros [= <-]. right. left. eauto.
Qed.

(** C6, as the code has it.  [prepare_out_of_session_act] raises whenever
    the target audience does not start with [https://], and the exception is
    [InvalidAssertionRequest] when a signing key is loaded and the act has a
    ['sub'].  [ttl_seconds] is not looked at: with a key, an act with
    ['sub'] and an HTTPS audience the call returns for every [ttl_seconds];
    and whenever the call returns, the payload has [iat = now] and
    [exp = now + ttl_seconds], so that [exp > iat] holds exactly when
    [ttl_seconds] is positive. *)
Theorem prepare_out_of_session_act_checks
    (self : t) (act : gmap string string) (agent_endpoint : string)
    (ttl_seconds now : Z) (nonce : string) :
  (startswith agent_endpoint "https://" = false →
   ∃ e, prepare_out_of_session_act self act agent_endpoint ttl_seconds now
          nonce = Raise e
        ∧ (is_Some (_private_key self) → is_Some (act !! "sub") →
           e = InvalidAssertionRequest))
  ∧ (is_Some (_private_key self) → is_Some (act !! "sub") →
     startswith agent_endpoint "https://" = true →
     is_return (prepare_out_of_session_act self act agent_endpoint
                  ttl_seconds now nonce) = true)
  ∧ (∀ assertion,
       prepare_out_of_session_act self act agent_endpoint ttl_seconds now
         nonce = Return assertion →
       startswith agent_endpoint "https://" = true
       ∧ ∃ p, payload assertion = Some p
              ∧ jwt.aud p = Some agent_endpoint
              ∧ jwt.iat p = Some now
              ∧ jwt.exp p = Some (now + ttl_seconds)
              ∧ (exp_after_iat p ↔ 0 < ttl_seconds)).
Proof.
  unfold prepare_out_of_session_act.
  destruct (_private_key self) as [key|].
  2: { split; [|split].
       - intros _. eexists. split; [reflexivity|]. intros [? [=]].
       - intros [? [=]].
       - discriminate. }
  destruct (negb (dict_truthy act) || negb (bool_decide (is_Some (act !! "sub"))))
    eqn:Hact.
  { split; [|split].
    - intros _. eexists. split; [reflexivity|]. intros _ [s Hs].
      rewrite (dict_truthy_lookup _ _ _ Hs), Hs in Hact.
      rewrite bool_decide_eq_true_2 in Hact by eauto. discriminate.
    - intros _ [s Hs].
      rewrite (dict_truthy_lookup _ _ _ Hs), Hs in Hact.
      rewrite bool_decide_eq_true_2 in Hact by eauto. discriminate.
    - discriminate. }
  destruct (startswith agent_endpoint "https://") eqn:Hhttps.
  - rewrite (startswith_https_nonempty _ Hhttps). simpl.
    split; [discriminate|]. split; [reflexivity|].
    intros assertion [= <-]. split; [reflexivity|].
    eexists. split; [reflexivity|]. simpl. repeat split; try reflexivity.
    + intros (i & e & [= <-] & [= <-] & Hlt). lia.
    + intros Hpos. exists now, (now + ttl_seconds). repeat split. lia.
  - rewrite orb_true_r.
    split; [|split; [discriminate | discriminate]].
    intros _. eexists. split; reflexivity.
Qed.

Lemma prepare_out_of_session_act_checks_witness :
  (∃ e, prepare_out_of_session_act Samples.sender Samples.alice
          "http://agent.example.com" 60 1000 "n-1" = Raise e
        ∧ e = InvalidAssertionRequest)
  ∧ is_return (prepare_out_of_session_act Samples.sender Samples.alice
                 Samples.agent_url (-5) 1000 "n-1") = true.
Proof.
  split.
  - destruct (prepare_out_of_session_act_checks Samples.sender Samples.alice
                "http://agent.example.com" 60 1000 "n-1") as [H _].
    destruct (H eq_refl) as (e & He & Hkind).
    exists e. split; [exact He|].
    apply Hkind; eexists; reflexivity.
  - destruct (prepare_out_of_session_act_checks Samples.sender Samples.alice
                Samples.agent_url (-5) 1000 "n-1") as (_ & H & _).
    apply H; [eexists; reflexivity | eexists; reflexivity | reflexivity].
Defined.

(** C6, counterexample.  With [ttl_seconds = 0] the call does not fail: it
    returns an assertion whose [exp] equals its [iat]. *)
Lemma zero_ttl_is_accepted :
  prepare_out_of_session_act Samples.sender Samples.alice Samples.agent_url
    0 1000 "n-1"
  = Return (jwt.encode
              {| jwt.iss := Some "application"%string;
                 jwt.sub := Some "application"%string;
                 jwt.aud := Some Samples.agent_url;
                 jwt.exp := Some 1000;
                 jwt.iat := Some 1000;
                 jwt.jti := Some "n-1"%string;
                 jwt.act := Some Samples.alice |} Samples.app_key)
  ∧ ¬ (1000 < 1000).
Proof.
  split; [reflexivity | lia].
Qed.

End claims_on_the_sender.

(** ** Extraction of the act from a session *)

Section claims_on_sessions.
Import HybridSender Session.

Lemma first_nonempty_lookups (session : gmap string string)
    (fields : list string) :
  first_nonempty session fields = first_true ((session !!.) <$> fields).
Proof.
  induction fields as [|f fs IH]; [reflexivity|].
  simpl. rewrite IH. destruct (session !! f) as [v|]; reflexivity.
Qed.

Lemma first_true_truthy (vs : list (option string)) (v : string) :
  first_true vs = Some v → str_truthy v = true.
Proof.
  induction vs as [|w ws IH]; [discriminate|].
  simpl. destruct (truthy w) eqn:Hw; [|exact IH].
  intros ->. exact Hw.
Qed.

(** A chain [a or b or c or d] is true exactly when one operand is, and
    then it is the first such. *)
Ltac by_truth_values :=
  repeat match goal with
         | |- context [str_truthy ?x] =>
             let E := fresh "E" in
             destruct (str_truthy x) eqn:E; simpl; rewrite ?E; simpl
         end.

Lemma or_chain_first (a b c d : option string) :
  match first_true [a; b; c; d] with
  | Some v => Py.or_ (Py.or_ (Py.or_ a b) c) d = Some v
  | None => truthy (Py.or_ (Py.or_ (Py.or_ a b) c) d) = false
  end.
Proof.
  unfold Py.or_.
  destruct a as [a|], b as [b|], c as [c|], d as [d|]; simpl;
    by_truth_values; reflexivity || assumption || discriminate.
Qed.

(** A chain that ends in a true operand yields the first true operand
    before it, or else that last operand. *)
Lemma or_chain_default (a b c : option string) (last : string) :
  str_truthy last = true →
  Py.or_ (Py.or_ (Py.or_ a b) c) (Some last)
    = Some (default last (first_true [a; b; c])).
Proof.
  intros Hl. unfold Py.or_.
  destruct a as [a|], b as [b|], c as [c|]; simpl;
    by_truth_values; reflexivity || discriminate.
Qed.

(** Sessions whose values are all strings, up to the act that is built:
    the act has as ['email'] the first non-empty value among [email],
    [user_email], [userPrincipalName], [mail], and as ['sub'] the first
    non-empty value among [sub], [user_id], [oid], or else that email;
    without a non-empty email value the call raises. *)
Lemma extract_act_of_string_session (session : gmap string string) :
  match first_nonempty session email_fields with
  | Some email =>
      ∃ act,
        extract_act_from_session session = Return act
        ∧ act !! "email" = Some email
        ∧ act !! "sub"
          = Some (default email (first_nonempty session subject_fields))
  | None =>
      extract_act_from_session session
      = Raise (if dict_truthy session then MissingIdentity
               else ValueError "Session must be a dictionary")
  end.
Proof.
  rewrite !first_nonempty_lookups. unfold extract_act_from_session.
  destruct (dict_truthy session) eqn:Hd; simpl negb; cbv iota.
  - pose proof (or_chain_first (session !! "email") (session !! "user_email")
                  (session !! "userPrincipalName") (session !! "mail")) as He.
    change ((session !!.) <$> email_fields) with
      [session !! "email"; session !! "user_email";
       session !! "userPrincipalName"; session !! "mail"].
    destruct (first_true _) as [email|] eqn:Hfirst.
    + rewrite He. apply first_true_truthy in Hfirst.
      simpl truthy. rewrite Hfirst. simpl negb. cbv iota.
      rewrite (or_chain_default _ _ _ email Hfirst).
      change ((session !!.) <$> subject_fields) with
        [session !! "sub"; session !! "user_id"; session !! "oid"].
      destruct (truthy _); eexists; (split; [reflexivity|]);
        simpl str_of; split.
      * rewrite lookup_insert_ne by discriminate. apply lookup_insert_eq.
      * rewrite !lookup_insert_ne by discriminate. apply lookup_insert_eq.
      * apply lookup_insert_eq.
      * rewrite lookup_insert_ne by discriminate. apply lookup_insert_eq.
    + rewrite He. reflexivity.
  - apply negb_false_iff, bool_decide_eq_true in Hd. subst session.
    reflexivity.
Qed.







(** A session with an email whose [user_id] is a number: the act is built,
    and the call then raises on the subject's missing [encode]. *)
Example numeric_subject_raises :
  ∀ sha256_hexdigest : string → string,
    hybrid_sender.extract_act_from_session sha256_hexdigest
      {[ "email"%string := PyValue.VStr "a@x";
         "user_id"%string := PyValue.VInt 42 ]}
    = Raise (AttributeError "'int' object has no attribute 'encode'").
Proof.
  reflexivity.
Qed.

Lemma or_truthy_right (a b : option string) :
  truthy b = true → truthy (Py.or_ a b) = true.
Proof.
  intros Hb. unfold Py.or_. destruct (truthy a) eqn:Ha; assumption.
Qed.

Lemma get_of_strings (session : gmap string string) (k : string) :
  PyValue.get (PyValue.VStr <$> session) k = PyValue.of_option (session !! k).
Proof.
  unfold PyValue.get. rewrite lookup_fmap.
  destruct (session !! k); reflexivity.
Qed.

Lemma truthy_of_option (v : option string) :
  PyValue.truthy (PyValue.of_option v) = truthy v.
Proof.
  destruct v; reflexivity.
Qed.

Lemma or_of_option (a b : option string) :
  PyValue.or_ (PyValue.of_option a) (PyValue.of_option b)
  = PyValue.of_option (Py.or_ a b).
Proof.
  unfold PyValue.or_, Py.or_. rewrite truthy_of_option.
  destruct (truthy a); reflexivity.
Qed.

Lemma of_option_truthy (v : option string) :
  truthy v = true → PyValue.of_option v = PyValue.VStr (str_of v).
Proof.
  destruct v; [reflexivity | discriminate].
Qed.

(** On a session whose values are all strings the call made for the log
    record never raises: the outcome is the one computed without it, the
    act of strings or the same exception. *)
Lemma extract_act_from_session_on_strings
    (sha256_hexdigest : string → string) (session : gmap string string) :
  hybrid_sender.extract_act_from_session sha256_hexdigest
    (PyValue.VStr <$> session)
  = hybrid_sender.of_strings (extract_act_from_session session).
Proof.
  unfold hybrid_sender.extract_act_from_session, extract_act_from_session.
  assert (dict_truthy (PyValue.VStr <$> session) = dict_truthy session) as ->.
  { unfold dict_truthy. f_equal. apply bool_decide_ext, fmap_empty_iff. }
  destruct (dict_truthy session); simpl negb; cbv iota; [|reflexivity].
  rewrite !get_of_strings, !or_of_option, !truthy_of_option.
  generalize (Py.or_ (Py.or_ (Py.or_ (session !! "email")
                                (session !! "user_email"))
                        (session !! "userPrincipalName"))
                (session !! "mail")).
  intros email.
  destruct (truthy email) eqn:Hemail; simpl negb; cbv iota; [|reflexivity].
  rewrite ?or_of_option, ?truthy_of_option.
  pose proof (or_truthy_right
                (Py.or_ (Py.or_ (session !! "sub") (session !! "user_id"))
                   (session !! "oid")) email Hemail) as Hsub.
  revert Hsub.
  generalize (Py.or_ (Py.or_ (Py.or_ (session !! "sub")
                                (session !! "user_id"))
                        (session !! "oid")) email).
  generalize (Py.or_ (Py.or_ (session !! "name") (session !! "display_name"))
                (session !! "displayName")).
  intros name sub Hsub.
  rewrite (of_option_truthy email Hemail), (of_option_truthy sub Hsub).
  unfold hybrid_sender._sanitize_identifier.
  destruct sub as [s|]; [|discriminate].
  simpl in Hsub. simpl str_of. simpl PyValue.truthy. rewrite Hsub.
  simpl negb. cbv iota.
  unfold hybrid_sender.of_strings.
  destruct (truthy name) eqn:Hname.
  - rewrite (of_option_truthy name Hname).
    rewrite !fmap_insert, fmap_empty. reflexivity.
  - rewrite !fmap_insert, fmap_empty. reflexivity.
Qed.

End claims_on_sessions.

(** ** The vendor adapters *)

Section claims_on_adapters.

(** X17.  [BaseAdapter.__init__] returns exactly on configurations that hold the
    three required fields and an [https://] token endpoint. *)
Lemma BaseAdapter_init_returns (config : gmap string string) :
  is_return (BaseAdapter.__init__ config) = true ↔
  is_Some (config !! "token_url") ∧ is_Some (config !! "client_id")
  ∧ is_Some (config !! "client_secret")
  ∧ startswith (str_of (config !! "token_url")) "https://" = true.
Proof.
  unfold BaseAdapter.__init__, BaseAdapter.required_fields.
  rewrite !filter_cons, filter_nil.
  destruct (config !! "token_url") as [u|] eqn:Hu;
    destruct (config !! "client_id") as [c|] eqn:Hc;
    destruct (config !! "client_secret") as [k|] eqn:Hk;
    repeat case_decide; try congruence; simpl;
    try (split; [discriminate | intros (Ka & Kb & Kc & _);
                 first [ destruct Ka as [? Ka]; discriminate Ka
                       | destruct Kb as [? Kb]; discriminate Kb
                       | destruct Kc as [? Kc]; discriminate Kc ]]).
  destruct (startswith u "https://"); simpl.
  - split; [intros _; eauto 10 | reflexivity].
  - split; [discriminate | intros (_ & _ & _ & Ks); discriminate].
Qed.

(** Every failure of [BaseAdapter.__init__] is a [ValueError]. *)
Lemma BaseAdapter_init_raises (config : gmap string string) (e : exn) :
  BaseAdapter.__init__ config = Raise e → ∃ msg, e = ValueError msg.
Proof.
  unfold BaseAdapter.__init__.
  destruct (negb (bool_decide _)); [intros [= <-]; eauto|].
  destruct (negb (startswith _ _)); [intros [= <-]; eauto | discriminate].
Qed.

(** A 4xx or 5xx answer leaves [request_token] as [requests.HTTPError] and
    no answer as [requests.ConnectionError]: the [except] clauses of the
    adapters re-raise. *)
Lemma post_for_token_http_error (net : requests.transport)
    (rq : requests.request) (r : requests.Response) :
  net rq = Some r →
  400 ≤ requests.status_code r < 600 →
  adapters.post_for_token net rq
    = Raise (HTTPError (requests.status_code r) (requests.text r)).
Proof.
  intros Hnet [Hlo Hhi]. unfold adapters.post_for_token, requests.post.
  rewrite Hnet. unfold requests.raise_for_status.
  apply Z.leb_le in Hlo. apply Z.ltb_lt in Hhi. rewrite Hlo, Hhi.
  reflexivity.
Qed.

Lemma post_for_token_no_answer (net : requests.transport)
    (rq : requests.request) :
  net rq = None → adapters.post_for_token net rq = Raise ConnectionError.
Proof.
  intros Hnet. unfold adapters.post_for_token, requests.post.
  rewrite Hnet. reflexivity.
Qed.

(** So it is for each of the three vendors. *)
Lemma vendor_adapters_reraise (net : requests.transport)
    (r : requests.Response) (sub : string) (act : gmap string string)
    (scope : list string) :
  (∀ rq, net rq = Some r) →
  400 ≤ requests.status_code r < 600 →
  let raised : result adapters.token_value :=
    Raise (HTTPError (requests.status_code r) (requests.text r)) in
  (∀ a : adapters.Auth0Adapter.t,
     adapters.request_token a net sub act scope = raised)
  ∧ (∀ a : adapters.OktaAdapter.t,
       adapters.request_token a net sub act scope = raised)
  ∧ (∀ a : adapters.EntraIDAdapter.t,
       adapters.request_token a net sub act scope = raised).
Proof.
  intros Hnet Hrange raised.
  repeat split; intros a; simpl;
    apply post_for_token_http_error; auto.
Qed.

(** [InSessionTokenRequest.request_token] turns every exception of the
    adapter other than [TokenRequestError] into a [TokenRequestError] that
    names the class and carries no status code. *)
Lemma orchestrator_wraps {A} `{adapters.Adapter A}
    (self : InSessionTokenRequest.t A) (net : requests.transport)
    (agent_id : string) (act : gmap string string) (s : string)
    (scope : list string) (e : exn) :
  agent_id ≠ ""%string → act !! "sub" = Some s → scope ≠ [] →
  adapters.request_token (InSessionTokenRequest.adapter self) net agent_id
    act scope = Raise e →
  (∀ m c, e ≠ TokenRequestError m c) →
  InSessionTokenRequest.request_token self net agent_id act scope
    = Raise (TokenRequestError ("Unexpected error: " +:+ class_name e) None).
Proof.
  intros Hid Hsub Hscope Hraise Hclass.
  unfold InSessionTokenRequest.request_token.
  apply str_truthy_true in Hid. rewrite Hid.
  rewrite (dict_truthy_lookup _ _ _ Hsub), Hsub.
  rewrite bool_decide_eq_true_2 by eauto.
  rewrite bool_decide_eq_false_2 by exact Hscope.
  simpl. rewrite Hraise.
  destruct e; try reflexivity. exfalso. eapply Hclass. reflexivity.
Qed.

(** C7, the code at a failing provider.  The provider answers 500 to the
    token request of the Auth0 adapter: [Auth0Adapter.request_token] raises
    [requests.HTTPError], not [TokenRequestError], and
    [InSessionTokenRequest.request_token] over that adapter raises a
    [TokenRequestError] whose [status_code] is [None]. *)
Theorem provider_status_is_not_surfaced :
  adapters.request_token Samples.auth0 Samples.provider_500 "agent-1"
    Samples.alice_user ["read"%string]
  = Raise (HTTPError 500 "server_error")
  ∧ InSessionTokenRequest.request_token
      (InSessionTokenRequest.Make Samples.auth0) Samples.provider_500
      "agent-1" Samples.alice_user ["read"%string]
    = Raise (TokenRequestError "Unexpected error: HTTPError" None).
Proof.
  assert (adapters.request_token Samples.auth0 Samples.provider_500 "agent-1"
            Samples.alice_user ["read"%string]
          = Raise (HTTPError 500 "server_error")) as Hadapter.
  { simpl. unfold adapters.Auth0Adapter.request_token.
    apply (post_for_token_http_error _ _
             {| requests.status_code := 500;
                requests.text := "server_error";
                requests.parsed := None |}); [reflexivity | simpl; lia]. }
  split; [exact Hadapter|].
  apply (orchestrator_wraps (InSessionTokenRequest.Make Samples.auth0)
           Samples.provider_500 "agent-1" Samples.alice_user
           "user:alice@example.com" ["read"%string] (HTTPError 500 "server_error")).
  - discriminate.
  - reflexivity.
  - discriminate.
  - exact Hadapter.
  - discriminate.
Qed.

(** C8, the code at an insecure endpoint.  [EntraIDAdapter.__init__] given
    an [http://] token endpoint constructs the adapter and keeps the
    endpoint, where [BaseAdapter.__init__] on the same three values raises
    [ValueError]. *)
Theorem EntraIDAdapter_accepts_insecure_endpoint :
  adapters.EntraIDAdapter.__init__ Samples.insecure_url "agent-1" "s3cret"
    "tenant-1"
  = {| adapters.EntraIDAdapter.token_url := "http://login.example.com/token";
       adapters.EntraIDAdapter.client_id := "agent-1";
       adapters.EntraIDAdapter.client_secret := "s3cret";
       adapters.EntraIDAdapter.tenant_id := "tenant-1" |}
  ∧ startswith Samples.insecure_url "https://" = false
  ∧ BaseAdapter.__init__ Samples.insecure_config
    = Raise (ValueError "Token URL must use HTTPS (https://)").
Proof.
  split; [reflexivity|]. split; [reflexivity|]. reflexivity.
Qed.

End claims_on_adapters.

(** ** The end-to-end scenario of the specification

    Act [{sub: alice}], [ttl = 60], audience [https://agent.example.com],
    signed at clock value 1000. *)

Section scenario.
Import OutOfSessionTokenRequest.

Example scenario_signed :
  HybridSender.prepare_out_of_session_act Samples.sender Samples.alice
    Samples.agent_url 60 1000 "n-1"
  = Return (jwt.encode (Samples.payload_with (Some "n-1"%string)
                          (Some Samples.alice)) Samples.app_key).
Proof. reflexivity. Qed.

Example scenario_verified_in_time :
  (receive_and_verify_act_jwt Samples.agent
     (jwt.encode (Samples.payload_with (Some "n-1"%string)
                    (Some Samples.alice)) Samples.app_key)
     Samples.agent_url 1059).1
  = Return Samples.alice.
Proof. reflexivity. Qed.

Example scenario_expired :
  receive_and_verify_act_jwt Samples.agent
    (jwt.encode (Samples.payload_with (Some "n-1"%string)
                   (Some Samples.alice)) Samples.app_key)
    Samples.agent_url 1061
  = (Raise Expired, Samples.agent).
Proof. reflexivity. Qed.

Example scenario_other_signer :
  receive_and_verify_act_jwt Samples.agent
    (jwt.encode (Samples.payload_with (Some "n-1"%string)
                   (Some Samples.alice)) Samples.other_key)
    Samples.agent_url 1001
  = (Raise SignatureInvalid, Samples.agent).
Proof. reflexivity. Qed.

End scenario.

(** * Further properties of the code *)

(** ** The verifier: what acceptance means and what the store holds *)

Section verifier_further.
Import OutOfSessionTokenRequest Sequences.

Lemma extract_act_return_inv (p : jwt.claims) (act : gmap string string) :
  extract_act p = Return act → jwt.act p = Some act ∧ is_Some (act !! "sub").
Proof.
  unfold extract_act. destruct (jwt.act p) as [a|]; [|discriminate].
  destruct (dict_truthy a); simpl; [|discriminate].
  destruct (bool_decide (is_Some (a !! "sub"))) eqn:Hs; simpl; [|discriminate].
  apply bool_decide_eq_true in Hs. intros [= <-]. split; [reflexivity | exact Hs].
Qed.

Lemma truthy_Some (v : option string) :
  truthy v = true → ∃ s, v = Some s ∧ s ≠ ""%string.
Proof.
  destruct v as [s|]; [|discriminate]. simpl. intros H%str_truthy_true. eauto.
Qed.

(** X1.  A call of [receive_and_verify_act_jwt] returns only for a token whose
    RS256 signature verifies under the configured key and whose registered
    claims pass for the expected audience at the time of the call; what it
    returns is the act of the signed payload, which has a ['sub']; the key
    is kept, and the store gains the non-empty nonce of the token, which was
    not in it, and nothing else. *)
Theorem accepted_assertion_is_authentic
    (self : t) (act_jwt : jwt.token) (audience : string) (now : Z)
    (act : gmap string string) (self' : t) :
  receive_and_verify_act_jwt self act_jwt audience now = (Return act, self') →
  signature_ok (_app_public_key self) act_jwt = true
  ∧ ∃ p, payload act_jwt = Some p
         ∧ valid_for p audience now
         ∧ jwt.act p = Some act
         ∧ is_Some (act !! "sub")
         ∧ _app_public_key self' = _app_public_key self
         ∧ match jwt.jti p with
           | Some j =>
               if str_truthy j
               then (j ∉ _used_jtis self)
                    ∧ _used_jtis self' = {[ j ]} ∪ _used_jtis self
               else self' = self
           | None => self' = self
           end.
Proof.
  intros H.
  destruct (receive_return_inv _ _ _ _ _ _ H) as (p & Hp & Hsig & Hv & Hact).
  split; [exact Hsig|]. exists p.
  destruct (extract_act_return_inv _ _ Hact) as [Hpa Hsub].
  split; [exact Hp|]. split; [apply validate_claims_passes, Hv|].
  split; [exact Hpa|]. split; [exact Hsub|].
  rewrite (receive_decoded _ _ _ _ _ Hsig Hp Hv) in H.
  destruct (jwt.jti p) as [j|]; [|injection H as _ <-; split; reflexivity].
  destruct (str_truthy j); [|injection H as _ <-; split; reflexivity].
  destruct (bool_decide (j ∈ _used_jtis self)) eqn:Hu; [discriminate|].
  apply bool_decide_eq_false in Hu. injection H as _ <-. simpl. auto.
Qed.

Lemma accepted_assertion_is_authentic_witness :
  signature_ok (_app_public_key Samples.agent)
    (jwt.encode (Samples.payload_with (Some "n-1"%string)
                   (Some Samples.alice)) Samples.app_key) = true.
Proof.
  apply (accepted_assertion_is_authentic Samples.agent
           (jwt.encode (Samples.payload_with (Some "n-1"%string)
                          (Some Samples.alice)) Samples.app_key)
           Samples.agent_url 1001 Samples.alice
           {| _app_public_key := jwt.public_key Samples.app_key;
              _used_jtis := {[ "n-1"%string ]} ∪ ∅ |}).
  reflexivity.
Defined.

(** One call: the key is kept. *)
Lemma key_kept (self : t) (act_jwt : jwt.token) (audience : string) (now : Z) :
  _app_public_key (receive_and_verify_act_jwt self act_jwt audience now).2
  = _app_public_key self.
Proof.
  unfold receive_and_verify_act_jwt.
  destruct (jwt.decode _ _ _ _ _) as [p|e]; simpl; [|reflexivity].
  destruct (truthy (jwt.jti p)); [|reflexivity].
  destruct (bool_decide _); reflexivity.
Qed.

(** One call: the store afterwards holds what it held and the nonce the
    call presented. *)
Lemma store_after_call (self : t) (c : call) (j : string) :
  j ∈ _used_jtis (receive_and_verify_act_jwt self (call_jwt c)
                    (call_audience c) (call_time c)).2
  ↔ j ∈ _used_jtis self ∨ presents (_app_public_key self) j c.
Proof.
  unfold presents.
  destruct (signature_ok (_app_public_key self) (call_jwt c)) eqn:Hsig.
  - destruct (payload (call_jwt c)) as [p|] eqn:Hp;
      [|destruct (call_jwt c); discriminate].
    destruct (jwt.validate_claims p (call_audience c) (call_time c)) as [e|]
      eqn:Hv.
    + rewrite (receive_invalid_claims _ _ _ _ _ e Hsig Hp Hv). simpl.
      split; [auto|]. intros [Hin|(_ & _ & p' & [= <-] & _ & Hvalid)];
        [exact Hin|].
      apply validate_claims_passes in Hvalid. congruence.
    + rewrite (receive_decoded _ _ _ _ _ Hsig Hp Hv).
      pose proof (proj1 (validate_claims_passes _ _ _) Hv) as Hvalid.
      destruct (jwt.jti p) as [j'|] eqn:Hj'.
      * destruct (str_truthy j') eqn:Ht.
        -- apply str_truthy_true in Ht.
           destruct (bool_decide (j' ∈ _used_jtis self)) eqn:Hu; simpl.
           ++ apply bool_decide_eq_true in Hu.
              split; [auto|]. intros [Hin|(_ & _ & p' & [= <-] & Hjj & _)];
                [exact Hin|]. congruence.
           ++ rewrite elem_of_union, elem_of_singleton.
              split.
              ** intros [->|Hin]; [right|left; exact Hin].
                 split; [exact Ht|]. split; [reflexivity|]. eauto.
              ** intros [Hin|(_ & _ & p' & [= <-] & Hjj & _)];
                   [right; exact Hin | left; congruence].
        -- simpl. split; [auto|].
           intros [Hin|(Hne & _ & p' & [= <-] & Hjj & _)]; [exact Hin|].
           apply str_truthy_false in Ht. congruence.
      * simpl. split; [auto|].
        intros [Hin|(_ & _ & p' & [= <-] & Hjj & _)]; [exact Hin|]. congruence.
  - rewrite (receive_rejected _ _ _ _ _ (decode_unsigned _ _ _ _ Hsig)). simpl.
    split; [auto|]. intros [Hin|(_ & Habs & _)]; [exact Hin | discriminate].
Qed.

(** X2.  After any sequence of calls the store holds exactly what it held at the
    start and the non-empty nonces that some call of the sequence presented
    in a token that verified under the configured key with passing
    registered claims.  So no entry is ever dropped, and a token whose
    signature does not verify or whose registered claims fail adds
    nothing.  Whether the call returned does not matter: a token that is
    rejected for its act alone has added its nonce. *)
Theorem replay_store_contents (self : t) (calls : list call) (j : string) :
  j ∈ _used_jtis (run_state self calls)
  ↔ j ∈ _used_jtis self ∨ Exists (presents (_app_public_key self) j) calls.
Proof.
  revert self. induction calls as [|c cs IH]; intros self; simpl.
  - rewrite Exists_nil. tauto.
  - rewrite IH, key_kept, store_after_call, Exists_cons. tauto.
Qed.

(** X3.  An assertion without a (non-empty) [jti] is not protected against
    replay: while its signature verifies and its registered claims pass,
    every call returns its act, whatever the store holds, and leaves the
    verifier unchanged. *)
Theorem assertion_without_nonce_is_replayable
    (self : t) (act_jwt : jwt.token) (p : jwt.claims) (audience : string)
    (now : Z) (act : gmap string string) :
  signature_ok (_app_public_key self) act_jwt = true →
  payload act_jwt = Some p →
  truthy (jwt.jti p) = false →
  valid_for p audience now →
  jwt.act p = Some act → is_Some (act !! "sub") →
  receive_and_verify_act_jwt self act_jwt audience now = (Return act, self).
Proof.
  intros Hsig Hp Hj Hv Hact [s Hs].
  apply validate_claims_passes in Hv.
  rewrite (receive_decoded _ _ _ _ _ Hsig Hp Hv).
  rewrite (extract_act_returns p act s Hact Hs).
  destruct (jwt.jti p) as [j|]; [|reflexivity].
  simpl in Hj. rewrite Hj. reflexivity.
Qed.

Lemma assertion_without_nonce_is_replayable_witness :
  receive_and_verify_act_jwt
    {| _app_public_key := jwt.public_key Samples.app_key;
       _used_jtis := {[ "n-1"%string ]} |}
    (jwt.encode (Samples.payload_with None (Some Samples.alice))
       Samples.app_key) Samples.agent_url 1030
  = (Return Samples.alice,
     {| _app_public_key := jwt.public_key Samples.app_key;
        _used_jtis := {[ "n-1"%string ]} |}).
Proof.
  apply (assertion_without_nonce_is_replayable _ _
           (Samples.payload_with None (Some Samples.alice))).
  - reflexivity.
  - reflexivity.
  - reflexivity.
  - repeat split; [intros i [= <-]; lia | intros e [= <-]; lia | discriminate].
  - reflexivity.
  - eexists. reflexivity.
Defined.

End verifier_further.

(** ** From the session to the verified act *)

Section pipeline.
Import OutOfSessionTokenRequest.

Lemma prepare_return_inv (self : HybridSender.t) (act : gmap string string)
    (agent_endpoint : string) (ttl_seconds now : Z) (nonce : string)
    (assertion : jwt.token) :
  HybridSender.prepare_out_of_session_act self act agent_endpoint ttl_seconds
    now nonce = Return assertion →
  ∃ key s,
    HybridSender._private_key self = Some key
    ∧ act !! "sub" = Some s
    ∧ startswith agent_endpoint "https://" = true
    ∧ assertion
      = jwt.encode {| jwt.iss := Some "application"%string;
                      jwt.sub := Some "application"%string;
                      jwt.aud := Some agent_endpoint;
                      jwt.exp := Some (now + ttl_seconds);
                      jwt.iat := Some now;
                      jwt.jti := Some nonce;
                      jwt.act := Some act |} key.
Proof.
  unfold HybridSender.prepare_out_of_session_act.
  destruct (HybridSender._private_key self) as [key|]; [|discriminate].
  destruct (dict_truthy act); simpl; [|discriminate].
  destruct (bool_decide (is_Some (act !! "sub"))) eqn:Hs; simpl; [|discriminate].
  apply bool_decide_eq_true in Hs. destruct Hs as [s Hs].
  destruct (str_truthy agent_endpoint); simpl; [|discriminate].
  destruct (startswith agent_endpoint "https://") eqn:Hh; simpl; [|discriminate].
  intros [= <-]. eauto 10.
Qed.

(** The registered claims of a payload of the sender pass exactly from the
    signing time on and before [exp]. *)
Lemma sender_payload_valid (endpoint : string) (ttl signed_at now : Z)
    (iss sub jti : option string) (act : option (gmap string string)) :
  startswith endpoint "https://" = true →
  valid_for {| jwt.iss := iss; jwt.sub := sub; jwt.aud := Some endpoint;
               jwt.exp := Some (signed_at + ttl); jwt.iat := Some signed_at;
               jwt.jti := jti; jwt.act := act |} endpoint now
  ↔ signed_at ≤ now < signed_at + ttl.
Proof.
  intros Hh. unfold valid_for, issued_by, unexpired. simpl. split.
  - intros (Hi & He & _ & _). specialize (Hi _ eq_refl).
    specialize (He _ eq_refl). lia.
  - intros Hw. repeat split.
    + intros i [= <-]. lia.
    + intros e [= <-]. lia.
    + apply str_truthy_true, startswith_https_nonempty, Hh.
Qed.

(** X4.  An assertion of [prepare_out_of_session_act], handed with its audience
    to a verifier that holds the matching public key and has not consumed
    its nonce, is accepted exactly at the clock values from the signing time
    on and before [exp = signing time + ttl_seconds]; with a [ttl_seconds]
    that is not positive it is never accepted. *)
Theorem acceptance_window
    (self : HybridSender.t) (key : jwt.rsa_private_key)
    (act : gmap string string) (agent_endpoint : string)
    (ttl_seconds signed_at : Z) (nonce : string) (assertion : jwt.token)
    (verifier : t) (now : Z) :
  HybridSender._private_key self = Some key →
  HybridSender.prepare_out_of_session_act self act agent_endpoint ttl_seconds
    signed_at nonce = Return assertion →
  _app_public_key verifier = jwt.public_key key →
  nonce ∉ _used_jtis verifier →
  is_return (receive_and_verify_act_jwt verifier assertion agent_endpoint
               now).1 = true
  ↔ signed_at ≤ now < signed_at + ttl_seconds.
Proof.
  intros Hkey Hprep Hpub Hfresh.
  destruct (prepare_return_inv _ _ _ _ _ _ _ Hprep)
    as (key' & s & Hkey' & Hsub & Hh & ->).
  assert (key' = key) as -> by congruence.
  rewrite <- (sender_payload_valid agent_endpoint ttl_seconds signed_at now
                (Some "application"%string) (Some "application"%string)
                (Some nonce) (Some act) Hh).
  unfold valid_for. rewrite <- validate_claims_passes.
  match goal with
  | |- context [jwt.validate_claims ?p _ _] => set (p0 := p)
  end.
  pose proof (encode_signature_ok _ p0 key Hpub) as Hsig.
  destruct (jwt.validate_claims p0 agent_endpoint now) as [e|] eqn:Hv.
  - rewrite (receive_invalid_claims _ _ p0 _ _ e Hsig eq_refl Hv). simpl.
    split; discriminate.
  - rewrite (receive_decoded _ _ p0 _ _ Hsig eq_refl Hv). simpl.
    rewrite (extract_act_returns p0 act s eq_refl Hsub).
    destruct (str_truthy nonce); [|simpl; tauto].
    rewrite bool_decide_eq_false_2 by exact Hfresh. simpl. tauto.
Qed.

Lemma acceptance_window_witness :
  is_return (receive_and_verify_act_jwt Samples.agent
               (jwt.encode (Samples.payload_with (Some "n-1"%string)
                              (Some Samples.alice)) Samples.app_key)
               Samples.agent_url 1060).1 = true
  ↔ 1000 ≤ 1060 < 1000 + 60.
Proof.
  apply (acceptance_window Samples.sender Samples.app_key Samples.alice
           Samples.agent_url 60 1000 "n-1" _ Samples.agent 1060).
  - reflexivity.
  - reflexivity.
  - reflexivity.
  - apply not_elem_of_empty.
Defined.

(** What [extract_act_from_session] returns: [email] and [sub] with values
    that are not empty, and at most one more key, [name]. *)
Lemma extract_return_inv (session act : gmap string string) :
  HybridSender.extract_act_from_session session = Return act →
  ∃ sub email,
    sub ≠ ""%string ∧ email ≠ ""%string
    ∧ (act = <["email" := email]> (<["sub" := sub]> ∅)
       ∨ ∃ name, name ≠ ""%string
                 ∧ act = <["name" := name]>
                           (<["email" := email]> (<["sub" := sub]> ∅))).
Proof.
  unfold HybridSender.extract_act_from_session.
  destruct (dict_truthy session); simpl; [|discriminate].
  match goal with
  | |- context [negb (truthy ?e)] => set (email := e)
  end.
  destruct (truthy email) eqn:He; simpl; [|discriminate].
  intros H.
  match type of H with
  | context [<["sub" := str_of ?v]> _] => set (sub := v) in H
  end.
  match type of H with
  | context [if truthy ?v then _ else _] => set (name := v) in H
  end.
  assert (truthy sub = true) as Hs by (apply or_truthy_right, He).
  destruct (truthy_Some _ He) as (e & -> & Hne).
  destruct (truthy_Some _ Hs) as (s & -> & Hns).
  exists s, e. split; [exact Hns|]. split; [exact Hne|].
  destruct (truthy name) eqn:Hn; injection H as <-.
  - right. destruct (truthy_Some _ Hn) as (n & -> & Hnn). eauto.
  - left. reflexivity.
Qed.

(** X5.  An act extracted from a session has a non-empty ['sub'] and a non-empty
    ['email'], no key besides [sub], [email] and [name], and passes
    [BaseAdapter._validate_act]. *)
Theorem extracted_act_is_valid (session act : gmap string string) :
  HybridSender.extract_act_from_session session = Return act →
  (∃ sub, act !! "sub" = Some sub ∧ sub ≠ ""%string)
  ∧ (∃ email, act !! "email" = Some email ∧ email ≠ ""%string)
  ∧ (∀ k, is_Some (act !! k) →
          k = "sub"%string ∨ k = "email"%string ∨ k = "name"%string)
  ∧ (∀ name, act !! "name" = Some name → name ≠ ""%string)
  ∧ base_adapter._validate_act act = Return tt.
Proof.
  intros H.
  destruct (extract_return_inv _ _ H) as (s & e & Hs & He & Hact).
  assert (act !! "sub" = Some s) as Hsub.
  { destruct Hact as [->|(n & _ & ->)];
      rewrite !lookup_insert_ne by discriminate; apply lookup_insert_eq. }
  assert (act !! "email" = Some e) as Hemail.
  { destruct Hact as [->|(n & _ & ->)];
      rewrite ?(lookup_insert_ne _ "name") by discriminate;
      apply lookup_insert_eq. }
  split; [eauto|]. split; [eauto|]. split; [|split].
  - intros k [v Hk].
    destruct Hact as [->|(n & _ & ->)];
      repeat (apply lookup_insert_Some in Hk as [[<- _]|[_ Hk]]; [auto|]);
      rewrite lookup_empty in Hk; discriminate.
  - intros n Hn.
    destruct Hact as [->|(n' & Hn' & ->)].
    + rewrite !lookup_insert_ne in Hn by discriminate.
      rewrite lookup_empty in Hn. discriminate.
    + rewrite lookup_insert_eq in Hn. congruence.
  - unfold base_adapter._validate_act.
    rewrite (dict_truthy_lookup _ _ _ Hsub), Hsub.
    rewrite bool_decide_eq_true_2 by eauto. simpl.
    apply str_truthy_true in Hs. rewrite Hs. reflexivity.
Qed.

Lemma extracted_act_is_valid_witness :
  base_adapter._validate_act
    (<["email" := "alice@example.com"%string]>
       (<["sub" := "alice@example.com"%string]> ∅)) = Return tt.
Proof.
  apply (extracted_act_is_valid
           {[ "mail"%string := "alice@example.com"%string ]}).
  reflexivity.
Defined.

(** X6.  The whole out-of-session path.  The act extracted from a session,
    signed for an HTTPS audience and verified with that audience by a
    verifier holding the matching key, within the window and with an unused
    nonce, comes back as extracted. *)
Theorem session_to_verified_act
    (session act : gmap string string) (key : jwt.rsa_private_key)
    (agent_endpoint : string) (ttl_seconds signed_at : Z) (nonce : string)
    (verifier : t) (now : Z) :
  HybridSender.extract_act_from_session session = Return act →
  startswith agent_endpoint "https://" = true →
  _app_public_key verifier = jwt.public_key key →
  signed_at ≤ now < signed_at + ttl_seconds →
  nonce ∉ _used_jtis verifier →
  ∃ assertion,
    HybridSender.prepare_out_of_session_act (HybridSender.Make (Some key))
      act agent_endpoint ttl_seconds signed_at nonce = Return assertion
    ∧ (receive_and_verify_act_jwt verifier assertion agent_endpoint now).1
      = Return act.
Proof.
  intros Hex Hh Hpub Hw Hfresh.
  destruct (extract_return_inv _ _ Hex) as (s & e & _ & _ & Hact).
  assert (act !! "sub" = Some s) as Hsub.
  { destruct Hact as [->|(n & _ & ->)];
      rewrite !lookup_insert_ne by discriminate; apply lookup_insert_eq. }
  unfold HybridSender.prepare_out_of_session_act. simpl.
  rewrite (dict_truthy_lookup _ _ _ Hsub), Hsub.
  rewrite bool_decide_eq_true_2 by eauto.
  rewrite Hh, (startswith_https_nonempty _ Hh). simpl.
  eexists. split; [reflexivity|].
  erewrite receive_decoded;
    [ | apply encode_signature_ok; exact Hpub | reflexivity
      | apply validate_claims_passes, sender_payload_valid; assumption ].
  simpl.
  match goal with
  | |- context [extract_act ?p] =>
      rewrite (extract_act_returns p act s eq_refl Hsub)
  end.
  destruct (str_truthy nonce); [|reflexivity].
  rewrite bool_decide_eq_false_2 by exact Hfresh. reflexivity.
Qed.

Lemma session_to_verified_act_witness :
  ∃ assertion,
    HybridSender.prepare_out_of_session_act Samples.sender
      (<["email" := "alice@example.com"%string]>
         (<["sub" := "alice@example.com"%string]> ∅))
      Samples.agent_url 60 1000 "n-1" = Return assertion
    ∧ (receive_and_verify_act_jwt Samples.agent assertion Samples.agent_url
         1001).1
      = Return (<["email" := "alice@example.com"%string]>
                  (<["sub" := "alice@example.com"%string]> ∅)).
Proof.
  apply (session_to_verified_act
           {[ "mail"%string := "alice@example.com"%string ]} _
           Samples.app_key Samples.agent_url 60 1000 "n-1" Samples.agent 1001).
  - reflexivity.
  - reflexivity.
  - reflexivity.
  - lia.
  - apply not_elem_of_empty.
Defined.



End pipeline.

(** ** The token requests of the two orchestrators *)

Section orchestrators.
Context {A : Type} `{adapters.Adapter A}.

Lemma inputs_valid (agent_id : string) (act : gmap string string)
    (scope : list string) :
  negb (str_truthy agent_id) || negb (dict_truthy act)
  || negb (bool_decide (is_Some (act !! "sub"))) || bool_decide (scope = [])
  = false
  ↔ agent_id ≠ ""%string ∧ is_Some (act !! "sub") ∧ scope ≠ [].
Proof.
  rewrite !orb_false_iff, !negb_false_iff, bool_decide_eq_true,
    bool_decide_eq_false, str_truthy_true.
  split.
  - intros (((Hid & _) & Hsub) & Hscope). auto.
  - intros (Hid & [s Hs] & Hscope).
    rewrite (dict_truthy_lookup _ _ _ Hs), Hs. eauto 10.
Qed.

(** X9.  Whatever the adapter does, [request_token] of either orchestrator
    returns only an object that the adapter returned and that has the
    attributes the orchestrator reads for its log record: [expires_in],
    and in session also [act_assertion].  The class of the object is not
    checked, so it need not be a [TokenResponse]; a [dict] has neither
    attribute and is never returned.  The call raises only [ValueError] or
    [TokenRequestError]. *)
Theorem orchestrator_outcomes (a : A) (v0 : OutOfSessionTokenRequest.t)
    (net : requests.transport) (agent_id : string)
    (act : gmap string string) (scope : list string) :
  let contract (reads : adapters.token_value → bool)
      (r : result adapters.token_value) :=
    match r with
    | Return v =>
        reads v = true
        ∧ (∀ d, v ≠ adapters.dict_value d)
        ∧ adapters.request_token a net agent_id act scope = Return v
    | Raise e =>
        (∃ m, e = ValueError m) ∨ (∃ m c, e = TokenRequestError m c)
    end in
  contract (λ v, adapters.has_expires_in v && adapters.has_act_assertion v)
    (InSessionTokenRequest.request_token
       (InSessionTokenRequest.Make a) net agent_id act scope)
  ∧ contract adapters.has_expires_in
      (OutOfSessionRequest.request_token
         (OutOfSessionRequest.Make a v0) net agent_id act scope).
Proof.
  unfold InSessionTokenRequest.request_token,
    OutOfSessionRequest.request_token. simpl.
  destruct (_ || _ || _ || _); [split; left; eauto|].
  destruct (adapters.request_token a net agent_id act scope)
    as [[d|t|cls attrs]|e]; simpl.
  - split; right; eauto.
  - split; (split; [reflexivity | split; [discriminate | reflexivity]]).
  - destruct (bool_decide ("expires_in"%string ∈ attrs)) eqn:Hexp; simpl;
      [|split; right; eauto].
    split.
    + destruct (bool_decide ("act_assertion"%string ∈ attrs)) eqn:Hact; simpl;
        [|right; eauto].
      rewrite ?Hexp, ?Hact.
      split; [reflexivity | split; [discriminate | reflexivity]].
    + rewrite ?Hexp. split; [reflexivity | split; [discriminate | reflexivity]].
  - destruct e; split; right; eauto.
Qed.

(** X10.  A [TokenRequestError] of the adapter passes through both orchestrators
    unchanged, status code included. *)
Theorem token_request_error_passes_through (a : A)
    (v0 : OutOfSessionTokenRequest.t) (net : requests.transport)
    (agent_id : string) (act : gmap string string) (scope : list string)
    (m : string) (c : option Z) :
  agent_id ≠ ""%string → is_Some (act !! "sub") → scope ≠ [] →
  adapters.request_token a net agent_id act scope
    = Raise (TokenRequestError m c) →
  InSessionTokenRequest.request_token (InSessionTokenRequest.Make a) net
    agent_id act scope = Raise (TokenRequestError m c)
  ∧ OutOfSessionRequest.request_token (OutOfSessionRequest.Make a v0) net
      agent_id act scope = Raise (TokenRequestError m c).
Proof.
  intros Hid Hsub Hscope Hraise.
  unfold InSessionTokenRequest.request_token,
    OutOfSessionRequest.request_token. simpl.
  rewrite (proj2 (inputs_valid agent_id act scope)) by auto.
  rewrite Hraise. split; reflexivity.
Qed.

(** X11.  Inputs are checked before the adapter is called: with an empty agent
    id, an act without ['sub'] or an empty scope list both orchestrators
    raise [ValueError], whatever the adapter and the network would do. *)
Theorem invalid_inputs_rejected_first (a : A)
    (v0 : OutOfSessionTokenRequest.t) (net : requests.transport)
    (agent_id : string) (act : gmap string string) (scope : list string) :
  agent_id = ""%string ∨ act !! "sub" = None ∨ scope = [] →
  InSessionTokenRequest.request_token (InSessionTokenRequest.Make a) net
    agent_id act scope
  = Raise (ValueError "Invalid inputs: agent_id, act.sub, and scope required")
  ∧ OutOfSessionRequest.request_token (OutOfSessionRequest.Make a v0) net
      agent_id act scope = Raise (ValueError "Invalid inputs").
Proof.
  intros Hbad.
  unfold InSessionTokenRequest.request_token,
    OutOfSessionRequest.request_token.
  destruct (_ || _ || _ || _) eqn:Hchk; [split; reflexivity|].
  apply inputs_valid in Hchk as (Hid & [s Hs] & Hscope).
  destruct Hbad as [?|[?|?]]; congruence.
Qed.

(** X12.  The two orchestrators differ in two places only.  The message of
    the [ValueError] for invalid inputs is shorter out of session.  And an
    object of the adapter that has [expires_in] but no [act_assertion] is
    returned out of session, where only [expires_in] is read, while in
    session reading [act_assertion] ends the call in the
    [TokenRequestError] for an unexpected [AttributeError].  On every other
    input and adapter result the outcomes are equal. *)
Theorem orchestrators_agree (a : A) (v0 : OutOfSessionTokenRequest.t)
    (net : requests.transport) (agent_id : string)
    (act : gmap string string) (scope : list string) :
  let in_session :=
    InSessionTokenRequest.request_token (InSessionTokenRequest.Make a)
      net agent_id act scope in
  let out_of_session :=
    OutOfSessionRequest.request_token (OutOfSessionRequest.Make a v0) net
      agent_id act scope in
  match in_session with
  | Raise (ValueError _) => out_of_session = Raise (ValueError "Invalid inputs")
  | Return v => out_of_session = Return v
  | Raise e =>
      match adapters.request_token a net agent_id act scope with
      | Return v =>
          if adapters.has_expires_in v then
            adapters.has_act_assertion v = false
            ∧ e = TokenRequestError "Unexpected error: AttributeError" None
            ∧ out_of_session = Return v
          else out_of_session = Raise e
      | Raise _ => out_of_session = Raise e
      end
  end.
Proof.
  unfold InSessionTokenRequest.request_token,
    OutOfSessionRequest.request_token. simpl.
  destruct (_ || _ || _ || _); [reflexivity|].
  destruct (adapters.request_token a net agent_id act scope)
    as [[d|t|cls attrs]|e]; simpl; try reflexivity.
  - destruct (bool_decide ("expires_in"%string ∈ attrs)) eqn:Hexp; simpl;
      [|reflexivity].
    destruct (bool_decide ("act_assertion"%string ∈ attrs)) eqn:Hact; simpl;
      [reflexivity | auto].
  - destruct e; reflexivity.
Qed.

(** An adapter whose result has [expires_in] and no [act_assertion]: the
    out-of-session orchestrator returns it, the in-session one raises. *)
Example orchestrators_differ_without_act_assertion :
  let token :=
    adapters.object_value "SimpleNamespace"
      {[ "access_token"%string; "expires_in"%string ]} in
  InSessionTokenRequest.request_token
    (InSessionTokenRequest.Make (Fixtures.Scripted (Return token)))
    Samples.provider_500 "agent-1" Samples.alice_user ["read"%string]
  = Raise (TokenRequestError "Unexpected error: AttributeError" None)
  ∧ OutOfSessionRequest.request_token
      (OutOfSessionRequest.Make (Fixtures.Scripted (Return token))
         Samples.agent)
      Samples.provider_500 "agent-1" Samples.alice_user ["read"%string]
    = Return token.
Proof.
  split; reflexivity.
Qed.

End orchestrators.

Lemma token_request_error_passes_through_witness :
  InSessionTokenRequest.request_token
    (InSessionTokenRequest.Make
       (Fixtures.Scripted (Raise (TokenRequestError "rate limited" (Some 429)))))
    Samples.provider_500 "agent-1" Samples.alice_user ["read"%string]
  = Raise (TokenRequestError "rate limited" (Some 429))
  ∧ OutOfSessionRequest.request_token
      (OutOfSessionRequest.Make
         (Fixtures.Scripted
            (Raise (TokenRequestError "rate limited" (Some 429))))
         Samples.agent)
      Samples.provider_500 "agent-1" Samples.alice_user ["read"%string]
    = Raise (TokenRequestError "rate limited" (Some 429)).
Proof.
  apply (token_request_error_passes_through
           (Fixtures.Scripted
              (Raise (TokenRequestError "rate limited" (Some 429))))
           Samples.agent Samples.provider_500 "agent-1" Samples.alice_user
           ["read"%string] "rate limited" (Some 429)).
  - discriminate.
  - eexists. reflexivity.
  - discriminate.
  - reflexivity.
Defined.

Lemma invalid_inputs_rejected_first_witness :
  InSessionTokenRequest.request_token
    (InSessionTokenRequest.Make
       (Fixtures.Scripted
          (Return (adapters.TokenResponse_value Fixtures.bearer))))
    Samples.provider_500 "agent-1" Samples.alice_user []
  = Raise (ValueError "Invalid inputs: agent_id, act.sub, and scope required")
  ∧ OutOfSessionRequest.request_token
      (OutOfSessionRequest.Make
         (Fixtures.Scripted
            (Return (adapters.TokenResponse_value Fixtures.bearer)))
         Samples.agent)
      Samples.provider_500 "agent-1" Samples.alice_user []
    = Raise (ValueError "Invalid inputs").
Proof.
  apply (invalid_inputs_rejected_first
           (Fixtures.Scripted
              (Return (adapters.TokenResponse_value Fixtures.bearer)))
           Samples.agent Samples.provider_500 "agent-1" Samples.alice_user []).
  right. right. reflexivity.
Defined.

(** ** The vendor adapters of [agents/python/adapters] *)

Section vendor_adapters.

Lemma post_for_token_return_inv (net : requests.transport)
    (rq : requests.request) (v : adapters.token_value) :
  adapters.post_for_token net rq = Return v →
  ∃ r d, net rq = Some r
         ∧ ¬ (400 ≤ requests.status_code r < 600)
         ∧ requests.parsed r = Some d
         ∧ v = adapters.dict_value d.
Proof.
  unfold adapters.post_for_token, requests.post, requests.raise_for_status,
    requests.json.
  destruct (net rq) as [r|]; [|discriminate].
  destruct (Z.leb_spec 400 (requests.status_code r));
    destruct (Z.ltb_spec (requests.status_code r) 600); simpl;
    try discriminate;
    (destruct (requests.parsed r) as [d|] eqn:Hp; [|discriminate]);
    intros [= <-]; exists r, d; repeat split; auto; lia.
Qed.



Lemma dict_adapter_never_satisfies {A} `{adapters.Adapter A} (a : A)
    (v0 : OutOfSessionTokenRequest.t) (net : requests.transport)
    (agent_id : string) (act : gmap string string) (scope : list string) :
  (∀ v, adapters.request_token a net agent_id act scope = Return v →
        ∃ d, v = adapters.dict_value d) →
  never_returns a v0 net agent_id act scope.
Proof.
  intros Hdict. unfold never_returns, InSessionTokenRequest.request_token,
    OutOfSessionRequest.request_token. simpl.
  destruct (_ || _ || _ || _); [split; reflexivity|].
  destruct (adapters.request_token a net agent_id act scope) as [v|e].
  - destruct (Hdict v eq_refl) as [d ->]. split; reflexivity.
  - destruct e; split; reflexivity.
Qed.

(** X14.  Over a vendor adapter of [agents/python/adapters] neither orchestrator
    ever returns a token: the adapters hand back a [dict], whose missing
    [expires_in] attribute ends the call in a [TokenRequestError], also
    when the provider answered 200 with a token. *)
Theorem vendor_adapters_never_satisfy_orchestrators
    (v0 : OutOfSessionTokenRequest.t) (net : requests.transport)
    (agent_id : string) (act : gmap string string) (scope : list string) :
  (∀ a : adapters.Auth0Adapter.t,
     never_returns a v0 net agent_id act scope)
  ∧ (∀ a : adapters.OktaAdapter.t,
       never_returns a v0 net agent_id act scope)
  ∧ (∀ a : adapters.EntraIDAdapter.t,
       never_returns a v0 net agent_id act scope).
Proof.
  split; [|split]; intros a; apply dict_adapter_never_satisfies; simpl;
    intros v Hret;
    apply post_for_token_return_inv in Hret as (r & d & _ & _ & _ & ->);
    eauto.
Qed.

End vendor_adapters.


(** The act [{'sub': 'user:alice@example.com'}] in the body EntraID's
    adapter sends: the key name, without the identity. *)
Example entraid_body_drops_act_values :
  requests.encode requests.form_data (requests.dict_field Samples.alice_user)
  = requests.form_values {[ "sub"%string ]}.
Proof.
  unfold Samples.alice_user. simpl. rewrite dom_singleton_L. reflexivity.
Qed.

(** ** The helpers of [base_adapter.py] *)

Section base_adapter_helpers.

(** X15.  [_validate_act] accepts exactly the acts whose ['sub'] is present and
    not empty; every rejection is a [ValueError]. *)
Theorem validate_act_accepts (act : gmap string string) :
  (base_adapter._validate_act act = Return tt
   ↔ ∃ s, act !! "sub" = Some s ∧ s ≠ ""%string)
  ∧ (∀ e, base_adapter._validate_act act = Raise e → ∃ m, e = ValueError m).
Proof.
  unfold base_adapter._validate_act. split.
  - destruct (act !! "sub") as [s|] eqn:Hs.
    + rewrite (dict_truthy_lookup _ _ _ Hs).
      rewrite bool_decide_eq_true_2 by eauto. simpl.
      destruct (str_truthy s) eqn:Ht; simpl.
      * apply str_truthy_true in Ht. split; [eauto | reflexivity].
      * apply str_truthy_false in Ht.
        split; [discriminate | intros (s' & [= <-] & Hne); contradiction].
    + rewrite (bool_decide_eq_false_2 (is_Some None)) by (intros [? [=]]).
      destruct (dict_truthy act); simpl;
        (split; [discriminate | intros (s' & [=] & _)]).
  - intros e.
    destruct (negb (dict_truthy act)); [intros [= <-]; eauto|].
    destruct (negb (bool_decide _)); [intros [= <-]; eauto|].
    destruct (negb (truthy _)); [intros [= <-]; eauto | discriminate].
Qed.

Lemma filter_missing_nil (config : gmap string string) (fields : list string) :
  filter (λ f, config !! f = None) fields = []
  ↔ ∀ f, f ∈ fields → is_Some (config !! f).
Proof.
  induction fields as [|f fs IH].
  - rewrite filter_nil. split; [intros _ f Hf; inversion Hf | reflexivity].
  - rewrite filter_cons. destruct (config !! f) as [v|] eqn:Hf.
    + rewrite decide_False by discriminate. rewrite IH. split.
      * intros Hall g Hg. apply elem_of_cons in Hg as [->|Hg];
          [rewrite Hf; eauto | auto].
      * intros Hall g Hg. apply Hall. apply elem_of_cons. auto.
    + rewrite decide_True by reflexivity. split; [discriminate|].
      intros Hall. specialize (Hall f (list_elem_of_here _ _)).
      rewrite Hf in Hall. destruct Hall as [? [=]].
Qed.

(** X16.  [validate_adapter_config] returns exactly when the configuration holds
    every required field, whatever the list of required fields; and a
    configuration that [BaseAdapter.__init__] accepts passes it for the
    fields [BaseAdapter.__init__] requires. *)
Theorem validate_adapter_config_accepts (config : gmap string string)
    (required_fields : list string) :
  (base_adapter.validate_adapter_config config required_fields = Return tt
   ↔ ∀ f, f ∈ required_fields → is_Some (config !! f))
  ∧ (is_return (BaseAdapter.__init__ config) = true →
     base_adapter.validate_adapter_config config BaseAdapter.required_fields
     = Return tt).
Proof.
  unfold base_adapter.validate_adapter_config, BaseAdapter.__init__. split.
  - rewrite <- filter_missing_nil.
    destruct (filter _ required_fields) as [|f fs]; simpl.
    + split; reflexivity.
    + split; discriminate.
  - destruct (bool_decide
                (filter (λ f, config !! f = None) BaseAdapter.required_fields
                 = [])); [reflexivity | discriminate].
Qed.

(** X18.  An adapter object that [BaseAdapter.__init__] returns has an
    [https://] token endpoint, and its fields are the entries of the
    configuration. *)
Theorem BaseAdapter_holds_https_endpoint (config : gmap string string)
    (a : BaseAdapter.t) :
  BaseAdapter.__init__ config = Return a →
  startswith (BaseAdapter.token_url a) "https://" = true
  ∧ config !! "token_url" = Some (BaseAdapter.token_url a)
  ∧ config !! "client_id" = Some (BaseAdapter.client_id a)
  ∧ config !! "client_secret" = Some (BaseAdapter._client_secret a)
  ∧ BaseAdapter.audience a = config !! "audience"
  ∧ BaseAdapter.config a = config.
Proof.
  unfold BaseAdapter.__init__.
  destruct (bool_decide _) eqn:Hm; simpl; [|discriminate].
  apply bool_decide_eq_true in Hm.
  pose proof (proj1 (filter_missing_nil _ _) Hm) as Hall.
  destruct (Hall "token_url"%string) as [u Hu];
    [unfold BaseAdapter.required_fields; set_solver|].
  destruct (Hall "client_id"%string) as [c Hc];
    [unfold BaseAdapter.required_fields; set_solver|].
  destruct (Hall "client_secret"%string) as [k Hk];
    [unfold BaseAdapter.required_fields; set_solver|].
  rewrite Hu, Hc, Hk. simpl.
  destruct (startswith u "https://") eqn:Hh; simpl; [|discriminate].
  intros [= <-]. simpl. repeat split; auto.
Qed.

Lemma BaseAdapter_holds_https_endpoint_witness :
  startswith "https://idp.example.com/token" "https://" = true.
Proof.
  apply (BaseAdapter_holds_https_endpoint
           {[ "token_url"%string := "https://idp.example.com/token"%string;
              "client_id"%string := "agent-1"%string;
              "client_secret"%string := "s3cret"%string ]}
           {| BaseAdapter.config :=
                {[ "token_url"%string := "https://idp.example.com/token"%string;
                   "client_id"%string := "agent-1"%string;
                   "client_secret"%string := "s3cret"%string ]};
              BaseAdapter.token_url := "https://idp.example.com/token";
              BaseAdapter.client_id := "agent-1";
              BaseAdapter._client_secret := "s3cret";
              BaseAdapter.audience := None |}).
  reflexivity.
Defined.

(** X19.  [TokenResponse.__repr__] shows nothing of the access token and, of the
    act assertion, only whether there is a non-empty one: two responses
    that agree on token type, lifetime and scope and both have, or both
    lack, an assertion have the same representation. *)
Theorem repr_hides_tokens (r1 r2 : BaseAdapter.TokenResponse) :
  BaseAdapter.token_type r1 = BaseAdapter.token_type r2 →
  BaseAdapter.expires_in r1 = BaseAdapter.expires_in r2 →
  BaseAdapter.scope r1 = BaseAdapter.scope r2 →
  truthy (BaseAdapter.act_assertion r1) = truthy (BaseAdapter.act_assertion r2) →
  base_adapter.__repr__ r1 = base_adapter.__repr__ r2.
Proof.
  intros Ht He Hs Ha. unfold base_adapter.__repr__.
  rewrite Ht, He, Hs, Ha. reflexivity.
Qed.

Lemma repr_hides_tokens_witness :
  base_adapter.__repr__ Fixtures.bearer
  = base_adapter.__repr__
      {| BaseAdapter.access_token := "another";
         BaseAdapter.token_type := "Bearer";
         BaseAdapter.expires_in := 3600;
         BaseAdapter.scope := "read";
         BaseAdapter.act_assertion := Some ""%string |}.
Proof.
  apply (repr_hides_tokens Fixtures.bearer); reflexivity.
Defined.


End base_adapter_helpers.

(** ** The calls to the protected resource *)

Section api_calls.
Import api_call.

Lemma result_eta {R} (x : result R) :
  match x with Return r => Return r | Raise e => Raise e end = x.
Proof. destruct x; reflexivity. Qed.

(** X21.  For an [https://] URL [call_api] hands exactly one request to the
    session and gives back what the session answers, whatever the status of
    the response.  The request goes to the URL with certificate
    verification on and carries [Authorization: Bearer <access_token>],
    [X-Act-Assertion] exactly when the token response has a non-empty act
    assertion, [Content-Type] exactly when there is a non-empty JSON
    payload, and no other header.  The out-of-session caller does the
    same. *)
Theorem call_api_sends_bearer (self : InSessionAPICall.t)
    (token_response : BaseAdapter.TokenResponse) (api_url method : string)
    (json_data : option (gmap string string)) :
  startswith api_url "https://" = true →
  ∃ rq,
    InSessionAPICall.call_api self token_response api_url method json_data
      = InSessionAPICall.http self rq
    ∧ OutOfSessionAPICall.call_api
        (OutOfSessionAPICall.Make (InSessionAPICall.timeout_seconds self)
           (InSessionAPICall.http self))
        token_response api_url method json_data
      = InSessionAPICall.http self rq
    ∧ url rq = api_url ∧ api_call.method rq = method ∧ verify rq = true
    ∧ json rq = json_data
    ∧ headers rq !! "Authorization"
      = Some ("Bearer " +:+ BaseAdapter.access_token token_response)
    ∧ headers rq !! "X-Act-Assertion"
      = (if truthy (BaseAdapter.act_assertion token_response)
         then BaseAdapter.act_assertion token_response else None)
    ∧ headers rq !! "Content-Type"
      = (if match json_data with Some d => dict_truthy d | None => false end
         then Some "application/json"%string else None)
    ∧ ∀ k, is_Some (headers rq !! k) →
           k = "Authorization"%string ∨ k = "X-Act-Assertion"%string
           ∨ k = "Content-Type"%string.
Proof.
  intros Hh.
  unfold InSessionAPICall.call_api, OutOfSessionAPICall.call_api. simpl.
  rewrite Hh. simpl.
  eexists. split; [|split].
  - apply result_eta.
  - apply result_eta.
  - simpl. unfold InSessionAPICall._prepare_headers.
    repeat split.
    + destruct (match json_data with Some d => dict_truthy d | None => false end),
        (truthy (BaseAdapter.act_assertion token_response));
        repeat (rewrite lookup_insert_ne by discriminate);
        first [apply lookup_insert_eq | apply lookup_singleton_eq].
    + destruct (match json_data with Some d => dict_truthy d | None => false end),
        (truthy (BaseAdapter.act_assertion token_response)) eqn:Ha;
        repeat (rewrite lookup_insert_ne by discriminate);
        try (rewrite lookup_insert_eq;
             destruct (truthy_Some _ Ha) as (s & -> & _); reflexivity);
        rewrite lookup_singleton_ne by discriminate; reflexivity.
    + destruct (match json_data with Some d => dict_truthy d | None => false end),
        (truthy (BaseAdapter.act_assertion token_response));
        try apply lookup_insert_eq;
        repeat (rewrite lookup_insert_ne by discriminate);
        rewrite lookup_singleton_ne by discriminate; reflexivity.
    + intros k [v Hk].
      destruct (match json_data with Some d => dict_truthy d | None => false end),
        (truthy (BaseAdapter.act_assertion token_response));
        repeat (apply lookup_insert_Some in Hk as [[<- _]|[_ Hk]]; [auto|]);
        apply lookup_singleton_Some in Hk as [<- _]; auto.
Qed.

Lemma call_api_sends_bearer_witness :
  ∃ rq,
    InSessionAPICall.call_api (InSessionAPICall.Make 10 Fixtures.forbidden)
      Fixtures.bearer "https://api.example.com/reports" "GET" None
    = Return {| requests.status_code := 403;
                requests.text := "forbidden";
                requests.parsed := None |}
    ∧ headers rq !! "Authorization" = Some "Bearer tok-1"%string
    ∧ headers rq !! "X-Act-Assertion" = None.
Proof.
  destruct (call_api_sends_bearer
              (InSessionAPICall.Make 10 Fixtures.forbidden) Fixtures.bearer
              "https://api.example.com/reports" "GET" None eq_refl)
    as (rq & Hcall & _ & _ & _ & _ & _ & Hauth & Hact & _).
  exists rq. split; [rewrite Hcall; reflexivity|]. split; assumption.
Defined.

(** For a URL that does not start with [https://] both callers raise
    [ValueError] without turning to the session: the outcome is the same
    for every session. *)
Theorem call_api_rejects_insecure_url
    (timeout_seconds : Z) (http : session)
    (token_response : BaseAdapter.TokenResponse) (api_url method : string)
    (json_data : option (gmap string string)) :
  startswith api_url "https://" = false →
  InSessionAPICall.call_api (InSessionAPICall.Make timeout_seconds http)
    token_response api_url method json_data
  = Raise (ValueError "API URL must use HTTPS")
  ∧ OutOfSessionAPICall.call_api
      (OutOfSessionAPICall.Make timeout_seconds http)
      token_response api_url method json_data
    = Raise (ValueError "API URL must use HTTPS").
Proof.
  intros Hh.
  unfold InSessionAPICall.call_api, OutOfSessionAPICall.call_api.
  rewrite Hh. split; reflexivity.
Qed.

Lemma call_api_rejects_insecure_url_witness :
  InSessionAPICall.call_api (InSessionAPICall.Make 10 Fixtures.forbidden)
    Fixtures.bearer "http://api.example.com/reports" "GET" None
  = Raise (ValueError "API URL must use HTTPS")
  ∧ OutOfSessionAPICall.call_api
      (OutOfSessionAPICall.Make 10 Fixtures.forbidden)
      Fixtures.bearer "http://api.example.com/reports" "GET" None
    = Raise (ValueError "API URL must use HTTPS").
Proof.
  apply (call_api_rejects_insecure_url 10 Fixtures.forbidden Fixtures.bearer
           "http://api.example.com/reports" "GET" None).
  reflexivity.
Defined.

End api_calls.

(** ** The two paths, end to end *)

Section flows.
Context {A : Type} `{adapters.Adapter A}.

(** X22.  In-session path: the act extracted from a session, handed on by
    [prepare_in_session_act], passes the input check of
    [InSessionTokenRequest.request_token] for a non-empty agent id and scope
    list; when the adapter returns a [TokenResponse] the orchestrator
    returns it, and the API call for an HTTPS URL carries its access token
    as bearer. *)
Theorem in_session_flow (sender : HybridSender.t)
    (session act : gmap string string) (a : A) (net : requests.transport)
    (agent_id : string) (scope : list string)
    (token : BaseAdapter.TokenResponse)
    (caller : api_call.InSessionAPICall.t) (api_url : string) :
  HybridSender.extract_act_from_session session = Return act →
  agent_id ≠ ""%string → scope ≠ [] →
  adapters.request_token a net agent_id
    (HybridSender.prepare_in_session_act sender act) scope
    = Return (adapters.TokenResponse_value token) →
  startswith api_url "https://" = true →
  InSessionTokenRequest.request_token (InSessionTokenRequest.Make a) net
    agent_id (HybridSender.prepare_in_session_act sender act) scope
  = Return (adapters.TokenResponse_value token)
  ∧ ∃ rq,
      api_call.InSessionAPICall.call_api caller token api_url "GET" None
      = api_call.InSessionAPICall.http caller rq
      ∧ api_call.url rq = api_url
      ∧ api_call.headers rq !! "Authorization"
        = Some ("Bearer " +:+ BaseAdapter.access_token token).
Proof.
  intros Hex Hid Hscope Hret Hh.
  destruct (extract_return_inv _ _ Hex) as (s & e & _ & _ & Hact).
  assert (act !! "sub" = Some s) as Hsub.
  { destruct Hact as [->|(n & _ & ->)];
      rewrite !lookup_insert_ne by discriminate; apply lookup_insert_eq. }
  split.
  - unfold InSessionTokenRequest.request_token,
      HybridSender.prepare_in_session_act in *. simpl.
    rewrite (proj2 (inputs_valid agent_id act scope)) by eauto.
    rewrite Hret. reflexivity.
  - unfold api_call.InSessionAPICall.call_api. rewrite Hh. simpl.
    eexists. split; [apply result_eta|]. split; [reflexivity|]. simpl.
    unfold api_call.InSessionAPICall._prepare_headers.
    destruct (truthy (BaseAdapter.act_assertion token));
      repeat (rewrite lookup_insert_ne by discriminate);
      apply lookup_singleton_eq.
Qed.

(** X23.  Out-of-session path: an act that [receive_and_verify_act_jwt] returns
    passes the input check of [request_token] of the same class for a
    non-empty agent id and scope list, and the [TokenResponse] of the
    adapter is returned. *)
Theorem out_of_session_flow (self : OutOfSessionTokenRequest.t) (a : A)
    (act_jwt : jwt.token) (audience : string) (now : Z)
    (act : gmap string string) (self' : OutOfSessionTokenRequest.t)
    (net : requests.transport) (agent_id : string) (scope : list string)
    (token : BaseAdapter.TokenResponse) :
  OutOfSessionTokenRequest.receive_and_verify_act_jwt self act_jwt audience
    now = (Return act, self') →
  agent_id ≠ ""%string → scope ≠ [] →
  adapters.request_token a net agent_id act scope
    = Return (adapters.TokenResponse_value token) →
  OutOfSessionRequest.request_token (OutOfSessionRequest.Make a self') net
    agent_id act scope
  = Return (adapters.TokenResponse_value token).
Proof.
  intros Hrecv Hid Hscope Hret.
  destruct (receive_return_inv _ _ _ _ _ _ Hrecv) as (p & _ & _ & _ & Hact).
  destruct (extract_act_return_inv _ _ Hact) as [_ Hsub].
  unfold OutOfSessionRequest.request_token. simpl.
  rewrite (proj2 (inputs_valid agent_id act scope)) by auto.
  rewrite Hret. reflexivity.
Qed.

End flows.

Lemma in_session_flow_witness :
  InSessionTokenRequest.request_token
    (InSessionTokenRequest.Make
       (Fixtures.Scripted
          (Return (adapters.TokenResponse_value Fixtures.bearer))))
    Samples.provider_500 "agent-1"
    (<["email" := "alice@example.com"%string]>
       (<["sub" := "alice@example.com"%string]> ∅))
    ["read"%string]
  = Return (adapters.TokenResponse_value Fixtures.bearer).
Proof.
  apply (in_session_flow (HybridSender.Make None)
           {[ "mail"%string := "alice@example.com"%string ]} _
           (Fixtures.Scripted
              (Return (adapters.TokenResponse_value Fixtures.bearer)))
           Samples.provider_500 "agent-1" ["read"%string] Fixtures.bearer
           (api_call.InSessionAPICall.Make 10 Fixtures.forbidden)
           "https://api.example.com/reports").
  - reflexivity.
  - discriminate.
  - discriminate.
  - reflexivity.
  - reflexivity.
Defined.

Lemma out_of_session_flow_witness :
  OutOfSessionRequest.request_token
    (OutOfSessionRequest.Make
       (Fixtures.Scripted
          (Return (adapters.TokenResponse_value Fixtures.bearer)))
       {| OutOfSessionTokenRequest._app_public_key :=
            jwt.public_key Samples.app_key;
          OutOfSessionTokenRequest._used_jtis := {[ "n-1"%string ]} ∪ ∅ |})
    Samples.provider_500 "agent-1" Samples.alice ["read"%string]
  = Return (adapters.TokenResponse_value Fixtures.bearer).
Proof.
  apply (out_of_session_flow Samples.agent
           (Fixtures.Scripted
              (Return (adapters.TokenResponse_value Fixtures.bearer)))
           (jwt.encode (Samples.payload_with (Some "n-1"%string)
                          (Some Samples.alice)) Samples.app_key)
           Samples.agent_url 1001 Samples.alice _ Samples.provider_500
           "agent-1" ["read"%string] Fixtures.bearer).
  - reflexivity.
  - discriminate.
  - discriminate.
  - reflexivity.
Defined.

Section unchecked_subject.
Import OutOfSessionTokenRequest.

(** X8.  Neither the sender nor the verifier looks at the value of ['sub']: an
    act whose ['sub'] is the empty string is signed by
    [prepare_out_of_session_act] and returned by
    [receive_and_verify_act_jwt], although [BaseAdapter._validate_act]
    rejects it. *)
Theorem empty_sub_passes_sender_and_verifier
    (key : jwt.rsa_private_key) (act : gmap string string)
    (agent_endpoint : string) (ttl_seconds signed_at : Z) (nonce : string)
    (verifier : t) (now : Z) :
  act !! "sub" = Some ""%string →
  startswith agent_endpoint "https://" = true →
  _app_public_key verifier = jwt.public_key key →
  signed_at ≤ now < signed_at + ttl_seconds →
  nonce ∉ _used_jtis verifier →
  ∃ assertion,
    HybridSender.prepare_out_of_session_act (HybridSender.Make (Some key))
      act agent_endpoint ttl_seconds signed_at nonce = Return assertion
    ∧ (receive_and_verify_act_jwt verifier assertion agent_endpoint now).1
      = Return act
    ∧ base_adapter._validate_act act
      = Raise (ValueError "Act claim 'sub' field cannot be empty").
Proof.
  intros Hsub Hh Hpub Hw Hfresh.
  unfold HybridSender.prepare_out_of_session_act. simpl.
  rewrite (dict_truthy_lookup _ _ _ Hsub), Hsub.
  rewrite bool_decide_eq_true_2 by eauto.
  rewrite Hh, (startswith_https_nonempty _ Hh). simpl.
  eexists. split; [reflexivity|]. split.
  - erewrite receive_decoded;
      [ | apply encode_signature_ok; exact Hpub | reflexivity
        | apply validate_claims_passes, sender_payload_valid; assumption ].
    simpl.
    match goal with
    | |- context [extract_act ?p] =>
        rewrite (extract_act_returns p act "" eq_refl Hsub)
    end.
    destruct (str_truthy nonce); [|reflexivity].
    rewrite bool_decide_eq_false_2 by exact Hfresh. reflexivity.
  - unfold base_adapter._validate_act.
    rewrite (dict_truthy_lookup _ _ _ Hsub), Hsub.
    rewrite bool_decide_eq_true_2 by eauto. reflexivity.
Qed.

Lemma empty_sub_passes_sender_and_verifier_witness :
  ∃ assertion,
    HybridSender.prepare_out_of_session_act Samples.sender
      {[ "sub"%string := ""%string ]} Samples.agent_url 60 1000 "n-1"
    = Return assertion
    ∧ (receive_and_verify_act_jwt Samples.agent assertion Samples.agent_url
         1001).1 = Return {[ "sub"%string := ""%string ]}
    ∧ base_adapter._validate_act {[ "sub"%string := ""%string ]}
      = Raise (ValueError "Act claim 'sub' field cannot be empty").
Proof.
  apply (empty_sub_passes_sender_and_verifier Samples.app_key
           {[ "sub"%string := ""%string ]} Samples.agent_url 60 1000 "n-1"
           Samples.agent 1001).
  - reflexivity.
  - reflexivity.
  - reflexivity.
  - lia.
  - apply not_elem_of_empty.
Defined.

End unchecked_subject.

Lemma validate_act_accepts_witness :
  base_adapter._validate_act Samples.alice = Return tt
  ∧ ∃ m, ValueError "Act claim cannot be empty" = ValueError m.
Proof.
  destruct (validate_act_accepts Samples.alice) as [Hiff _].
  destruct (validate_act_accepts ∅) as [_ Hraise].
  split.
  - apply Hiff. exists "alice"%string. split; [reflexivity | discriminate].
  - apply Hraise. reflexivity.
Defined.

Lemma validate_adapter_config_accepts_witness :
  base_adapter.validate_adapter_config
    {[ "token_url"%string := "https://idp.example.com/token"%string;
       "client_id"%string := "agent-1"%string;
       "client_secret"%string := "s3cret"%string ]}
    BaseAdapter.required_fields = Return tt.
Proof.
  destruct (validate_adapter_config_accepts
              {[ "token_url"%string := "https://idp.example.com/token"%string;
                 "client_id"%string := "agent-1"%string;
                 "client_secret"%string := "s3cret"%string ]}
              BaseAdapter.required_fields) as [_ Hinit].
  apply Hinit. reflexivity.
Defined.
